(** * A shallow embedding of [emails.py] (class [MedicalEmailAgent])

    The development follows the source file top to bottom:

    - Python values: [str] as a list of Unicode code points, exceptions as
      a [result] type, the [requirements] dict as a record;
    - the part of the interpreter's Unicode database the code relies on
      ([\d], [\s], [\w], [str.lower], [str.upper], case-insensitive
      matching), concrete on Latin-1 and a parameter beyond it;
    - a small backtracking matcher for the regular expressions of the
      source, with [re.search], [re.match] and [re.findall];
    - [datetime.strptime] for the format [%H:%M], [timedelta] arithmetic
      and [strftime] for [%d/%m/%Y];
    - the methods [_parse_date], [_calculate_shift_duration],
      [extract_requirements], [mark_as_processed] and [process_emails];
    - the properties of these methods. *)

From Stdlib Require Import ZArith List Bool String Ascii DecimalString Lia.
Import ListNotations.
Local Open Scope Z_scope.

Set Implicit Arguments.

(* ================================================================== *)
(** ** Python strings *)

(** A Python [str] is a sequence of Unicode code points. *)
Definition codepoint := Z.
Definition str := list codepoint.

(** String literals of this file are written in UTF-8, as the source
    file is; [py] decodes them to code points. *)
Fixpoint utf8_decode (bs : list Z) : str :=
  match bs with
  | [] => []
  | b0 :: r0 =>
      if b0 <? 128 then b0 :: utf8_decode r0
      else match r0 with
           | [] => []
           | b1 :: r1 =>
               if b0 <? 224 then ((b0 - 192) * 64 + (b1 - 128)) :: utf8_decode r1
               else match r1 with
                    | [] => []
                    | b2 :: r2 =>
                        if b0 <? 240
                        then ((b0 - 224) * 4096 + (b1 - 128) * 64 + (b2 - 128))
                               :: utf8_decode r2
                        else match r2 with
                             | [] => []
                             | b3 :: r3 =>
                                 ((b0 - 240) * 262144 + (b1 - 128) * 4096
                                  + (b2 - 128) * 64 + (b3 - 128))
                                   :: utf8_decode r3
                             end
                    end
           end
  end.

Definition py (s : string) : str :=
  utf8_decode (map (fun a => Z.of_N (N_of_ascii a)) (list_ascii_of_string s)).
Arguments py s%_string.

Definition str_eqb (a b : str) : bool :=
  if list_eq_dec Z.eq_dec a b then true else false.

(** [x in xs] for a list or a set of strings. *)
Definition str_mem (x : str) (xs : list str) : bool := existsb (str_eqb x) xs.

(** [a.startswith(b)], used by [b in a]. *)
Fixpoint starts_with (a b : str) {struct b} : bool :=
  match b, a with
  | [], _ => true
  | y :: b', x :: a' => (x =? y) && starts_with a' b'
  | _ :: _, [] => false
  end.

(** [sub in s] for two strings: [sub] occurs in [s] as a substring. *)
Fixpoint str_contains (s sub : str) : bool :=
  starts_with s sub ||
  match s with
  | [] => false
  | _ :: s' => str_contains s' sub
  end.

(** [s.replace(old, new)] for one-character [old] and [new]. *)
Definition replace_char (old new : codepoint) (s : str) : str :=
  map (fun c => if c =? old then new else c) s.

(** [s[i:j]]. *)
Definition slice (s : str) (i j : nat) : str := firstn (j - i) (skipn i s).

(* ================================================================== *)
(** ** Exceptions *)

(** The exceptions the modelled code can meet; all of them are instances
    of [Exception], so [except Exception] and a bare [except] catch the
    same ones here. *)
Inductive exn : Type :=
| ValueError
| OverflowError
| AttributeError
| KeyError
| IMAPClientError.

Inductive result (A : Type) : Type :=
| Ok (a : A)
| Raise (e : exn).
Arguments Ok {A} a.
Arguments Raise {A} e.

Definition bind {A B : Type} (m : result A) (f : A -> result B) : result B :=
  match m with
  | Ok a => f a
  | Raise e => Raise e
  end.

(** [try: body  except Exception: handler]. *)
Definition try_except {A : Type} (body : result A) (handler : exn -> result A)
  : result A :=
  match body with
  | Ok a => Ok a
  | Raise e => handler e
  end.

Declare Scope py_scope.
Delimit Scope py_scope with py.
Notation "x <- m ;; k" := (bind m (fun x => k))
  (at level 61, m at next level, right associativity) : py_scope.

(* ================================================================== *)
(** ** The Unicode database *)

(** The character classes below are those of CPython's [unicodeobject]
    and [_sre].  They are written out for code points below 256 (ASCII and
    Latin-1, which cover the French text of the emails); for the other
    code points they are taken from a table [unicode_db]. *)
Record unicode_db : Type := {
  (** value of a character of category Nd ([Py_UNICODE_TODECIMAL]) *)
  ucd_decimal : codepoint -> option Z;
  (** alphabetic, digit or numeric ([Py_UNICODE_ISALNUM] beyond Nd) *)
  ucd_alnum : codepoint -> bool;
  (** [Py_UNICODE_ISSPACE] *)
  ucd_space : codepoint -> bool;
  (** simple lower-case mapping ([_PyUnicode_ToLowercase]) *)
  ucd_tolower : codepoint -> codepoint;
  (** full lower-case mapping ([_PyUnicode_ToLowerFull]) *)
  ucd_lower_full : codepoint -> str;
  (** full upper-case mapping ([_PyUnicode_ToUpperFull]) *)
  ucd_upper_full : codepoint -> str;
  (** the final-sigma test of [str.lower], on a string and an index *)
  ucd_final_sigma : str -> nat -> bool
}.

Definition between (lo hi c : codepoint) : bool := (lo <=? c) && (c <=? hi).

Definition is_some {A : Type} (o : option A) : bool :=
  match o with Some _ => true | None => false end.

Section Unicode.
Variable U : unicode_db.

(** [Py_UNICODE_TODECIMAL]: the value of a decimal digit. *)
Definition decimal_value (c : codepoint) : option Z :=
  if c <? 256 then (if between 48 57 c then Some (c - 48) else None)
  else ucd_decimal U c.

(** [\d] *)
Definition is_decimal (c : codepoint) : bool := is_some (decimal_value c).

(** [\s] *)
Definition is_space (c : codepoint) : bool :=
  if c <? 256
  then between 9 13 c || between 28 32 c || (c =? 133) || (c =? 160)
  else ucd_space U c.

Definition is_alnum (c : codepoint) : bool :=
  if c <? 256
  then between 48 57 c || between 65 90 c || between 97 122 c
       || (c =? 170) || between 178 179 c || (c =? 181)
       || between 185 186 c || between 188 190 c
       || between 192 214 c || between 216 246 c || between 248 255 c
  else ucd_alnum U c || is_some (ucd_decimal U c).

(** [\w] *)
Definition is_word (c : codepoint) : bool := is_alnum c || (c =? 95).

Definition latin1_upper (c : codepoint) : bool :=
  between 65 90 c || (between 192 222 c && negb (c =? 215)).

Definition latin1_lower (c : codepoint) : bool :=
  between 97 122 c || (between 224 254 c && negb (c =? 247)).

(** [_PyUnicode_ToLowercase] *)
Definition to_lower (c : codepoint) : codepoint :=
  if c <? 256 then (if latin1_upper c then c + 32 else c)
  else ucd_tolower U c.

(** [_PyUnicode_ToLowerFull] *)
Definition lower_full (c : codepoint) : str :=
  if c <? 256 then [if latin1_upper c then c + 32 else c]
  else ucd_lower_full U c.

(** [_PyUnicode_ToUpperFull] *)
Definition upper_full (c : codepoint) : str :=
  if c <? 256 then
    if latin1_lower c then [c - 32]
    else if c =? 223 then [83; 83]
    else if c =? 181 then [924]
    else if c =? 255 then [376]
    else [c]
  else ucd_upper_full U c.

(** [str.lower()]: character by character, capital sigma (931) apart,
    which depends on its context. *)
Fixpoint lower_from (whole : str) (i : nat) (rest : str) : str :=
  match rest with
  | [] => []
  | c :: r =>
      (if c =? 931
       then [if ucd_final_sigma U whole i then 962 else 963]
       else lower_full c)
        ++ lower_from whole (S i) r
  end.

Definition str_lower (s : str) : str := lower_from s 0 s.

(** [str.upper()] *)
Definition str_upper (s : str) : str := flat_map upper_full s.

(** [int(s)] on a non-empty string of decimal digits. *)
Fixpoint int_digits (acc : Z) (s : str) : result Z :=
  match s with
  | [] => Ok acc
  | c :: s' =>
      match decimal_value c with
      | Some v => int_digits (10 * acc + v) s'
      | None => Raise ValueError
      end
  end.

Definition py_int (s : str) : result Z :=
  match s with
  | [] => Raise ValueError
  | _ => int_digits 0 s
  end.
End Unicode.

(** A database with nothing beyond Latin-1: the characters above 255 are
    neither digits, letters nor spaces and have no case. *)
Definition latin1_db : unicode_db := {|
  ucd_decimal := fun _ => None;
  ucd_alnum := fun _ => false;
  ucd_space := fun _ => false;
  ucd_tolower := fun c => c;
  ucd_lower_full := fun c => [c];
  ucd_upper_full := fun c => [c];
  ucd_final_sigma := fun _ _ => false
|}.


(* ================================================================== *)
(** ** Regular expressions *)

(** The fragment of Python's [re] syntax the source uses: one character
    of a class, [\b], concatenation, alternation, the greedy repetitions
    [{m,n}] and [*] of a character class, and a capturing group. *)
Inductive regex : Type :=
| Eps
| Chr (p : codepoint -> bool)
| Boundary (word : codepoint -> bool)
| Cat (a b : regex)
| Alt (a b : regex)
| Rep (p : codepoint -> bool) (lo hi : nat)
| Star (p : codepoint -> bool)
| Group (n : nat) (r : regex).

(** The spans of the groups matched so far, as offsets from the start of
    the match. *)
Definition captures := list (nat * (nat * nat)).

Fixpoint capture (n : nat) (caps : captures) : option (nat * nat) :=
  match caps with
  | [] => None
  | (m, span) :: caps' => if Nat.eqb m n then Some span else capture n caps'
  end.

Definition opt_class (p : codepoint -> bool) (o : option codepoint) : bool :=
  match o with Some c => p c | None => false end.

Section Matcher.
Variable R : Type.

(** Greedy repetition [{lo,hi}]: take one more character when the class
    and the upper bound allow it, and fall back to stopping here when the
    rest of the pattern fails after it. [prev] is the character before
    the current position and [pos] the offset of the position. *)
Fixpoint rep (p : codepoint -> bool) (lo hi : nat)
    (prev : option codepoint) (pos : nat) (s : str)
    (k : option codepoint -> nat -> str -> option R) {struct hi} : option R :=
  let stop := match lo with O => k prev pos s | S _ => None end in
  match hi with
  | O => stop
  | S hi' =>
      match s with
      | c :: s' =>
          if p c then
            match rep p (Nat.pred lo) hi' (Some c) (S pos) s' k with
            | Some r => Some r
            | None => stop
            end
          else stop
      | [] => stop
      end
  end.

(** Greedy repetition [*]. *)
Fixpoint star (p : codepoint -> bool)
    (prev : option codepoint) (pos : nat) (s : str)
    (k : option codepoint -> nat -> str -> option R) {struct s} : option R :=
  match s with
  | c :: s' =>
      if p c then
        match star p (Some c) (S pos) s' k with
        | Some r => Some r
        | None => k prev pos s
        end
      else k prev pos s
  | [] => k prev pos s
  end.

(** The backtracking matcher, in continuation-passing style: [k] is the
    rest of the pattern. *)
Fixpoint run (r : regex) (prev : option codepoint) (pos : nat) (s : str)
    (caps : captures)
    (k : option codepoint -> nat -> str -> captures -> option R) : option R :=
  match r with
  | Eps => k prev pos s caps
  | Chr p =>
      match s with
      | c :: s' => if p c then k (Some c) (S pos) s' caps else None
      | [] => None
      end
  | Boundary word =>
      if xorb (opt_class word prev) (opt_class word (hd_error s))
      then k prev pos s caps else None
  | Cat a b =>
      run a prev pos s caps (fun prev' pos' s' caps' => run b prev' pos' s' caps' k)
  | Alt a b =>
      match run a prev pos s caps k with
      | Some x => Some x
      | None => run b prev pos s caps k
      end
  | Rep p lo hi =>
      rep p lo hi prev pos s (fun prev' pos' s' => k prev' pos' s' caps)
  | Star p =>
      star p prev pos s (fun prev' pos' s' => k prev' pos' s' caps)
  | Group n r' =>
      run r' prev pos s caps
        (fun prev' pos' s' caps' => k prev' pos' s' ((n, (pos, pos')) :: caps'))
  end.
End Matcher.

(** A match object: the subject from the start of the match on, the
    length of the match and the spans of its groups. *)
Record match_obj : Type := {
  m_subject : str;
  m_end : nat;
  m_caps : captures
}.

(** [m.group(n)] for a group that took part in the match. *)
Definition group (m : match_obj) (n : nat) : str :=
  match capture n (m_caps m) with
  | Some (i, j) => slice (m_subject m) i j
  | None => []
  end.

(** A match that starts at the head of [s], [prev] being the character
    before it. *)
Definition match_at (r : regex) (prev : option codepoint) (s : str)
  : option match_obj :=
  run r prev 0%nat s []
    (fun _ pos' _ caps => Some {| m_subject := s; m_end := pos'; m_caps := caps |}).

(** [re.match(r, s)] *)
Definition re_match (r : regex) (s : str) : option match_obj :=
  match_at r None s.

(** [re.search(r, s)]: the leftmost match. *)
Fixpoint search_from (r : regex) (prev : option codepoint) (s : str)
  : option match_obj :=
  match match_at r prev s with
  | Some m => Some m
  | None =>
      match s with
      | [] => None
      | c :: s' => search_from r (Some c) s'
      end
  end.

Definition re_search (r : regex) (s : str) : option match_obj :=
  search_from r None s.

(** [re.findall(r, s)] for a pattern with one group and no empty match:
    the texts of group 1 of the successive non-overlapping matches, from
    left to right. [skip] counts the characters of the last match that
    are still to be passed. *)
Fixpoint findall_from (r : regex) (prev : option codepoint) (skip : nat)
    (s : str) : list str :=
  match skip with
  | S n =>
      match s with
      | [] => []
      | c :: s' => findall_from r (Some c) n s'
      end
  | O =>
      match match_at r prev s with
      | Some m =>
          group m 1 ::
          match s with
          | [] => []
          | c :: s' => findall_from r (Some c) (Nat.pred (m_end m)) s'
          end
      | None =>
          match s with
          | [] => []
          | c :: s' => findall_from r (Some c) 0%nat s'
          end
      end
  end.

Definition re_findall (r : regex) (s : str) : list str :=
  findall_from r None 0%nat s.

Section Patterns.
Variable U : unicode_db.

(** A literal character of the pattern that has no case. *)
Definition lit (ch : codepoint) : regex := Chr (fun c => c =? ch).

(** A lower-case letter of the pattern under [re.IGNORECASE]: the
    subject's character is lower-cased before the comparison. *)
Definition lit_i (ch : codepoint) : regex := Chr (fun c => to_lower U c =? ch).

Definition digit : regex := Chr (is_decimal U).
Definition range (lo hi : codepoint) : regex := Chr (between lo hi).

(** [(\d{1,2}h\d{0,2})], [h] under [re.IGNORECASE] *)
Definition re_clock (n : nat) : regex :=
  Group n (Cat (Rep (is_decimal U) 1 2)
            (Cat (lit_i 104) (Rep (is_decimal U) 0 2))).

(** [r"(\d{1,2}h\d{0,2})\s*(?:-|à|au)\s*(\d{1,2}h\d{0,2})"] with
    [re.IGNORECASE] *)
Definition re_time_range : regex :=
  Cat (re_clock 1)
   (Cat (Star (is_space U))
     (Cat (Alt (lit 45) (Alt (lit_i 224) (Cat (lit_i 97) (lit_i 117))))
       (Cat (Star (is_space U)) (re_clock 2)))).

(** [r"\b(\d{2}/\d{2}/\d{4})\b"] *)
Definition re_date : regex :=
  Cat (Boundary (is_word U))
   (Cat (Group 1
          (Cat (Rep (is_decimal U) 2 2)
            (Cat (lit 47)
              (Cat (Rep (is_decimal U) 2 2)
                (Cat (lit 47) (Rep (is_decimal U) 4 4))))))
     (Boundary (is_word U))).

(** The pattern [_strptime] builds for the format [%H:%M]:
    [(?P<H>2[0-3]|[0-1]\d|\d):(?P<M>[0-5]\d|\d)] *)
Definition re_HM : regex :=
  Cat (Group 1 (Alt (Cat (lit 50) (range 48 51))
                 (Alt (Cat (range 48 49) digit) digit)))
   (Cat (lit 58)
     (Group 2 (Alt (Cat (range 48 53) digit) digit))).
End Patterns.

(* ================================================================== *)
(** ** [datetime] and [timedelta] *)

Record datetime : Type := {
  year : Z;
  month : Z;
  day : Z;
  hour : Z;
  minute : Z;
  second : Z
}.

(** A normalised [timedelta]: [0 <= td_seconds < 86400]. *)
Record timedelta : Type := {
  td_days : Z;
  td_seconds : Z
}.

Definition is_leap (y : Z) : bool :=
  (y mod 4 =? 0) && (negb (y mod 100 =? 0) || (y mod 400 =? 0)).

Definition days_in_month (y m : Z) : Z :=
  if m =? 2 then (if is_leap y then 29 else 28)
  else if (m =? 4) || (m =? 6) || (m =? 9) || (m =? 11) then 30
  else 31.

Definition days_before_year (y : Z) : Z :=
  let y1 := y - 1 in y1 * 365 + y1 / 4 - y1 / 100 + y1 / 400.

Definition days_before_month (y m : Z) : Z :=
  fold_left (fun acc k => acc + days_in_month y (Z.of_nat k))
            (seq 1 (Z.to_nat (m - 1))) 0.

Definition toordinal (d : datetime) : Z :=
  days_before_year (year d) + days_before_month (year d) (month d) + day d.

Definition valid_datetime (d : datetime) : bool :=
  between 1 9999 (year d) && between 1 12 (month d)
  && between 1 (days_in_month (year d) (month d)) (day d)
  && between 0 23 (hour d) && between 0 59 (minute d) && between 0 59 (second d).

(** The constructor [datetime(y, m, d, H, M, S)]. *)
Definition datetime_new (y m d H M S : Z) : result datetime :=
  let dt := {| year := y; month := m; day := d;
               hour := H; minute := M; second := S |} in
  if valid_datetime dt then Ok dt else Raise ValueError.

(** [a < b]: the fields are compared in order. *)
Definition datetime_ltb (a b : datetime) : bool :=
  let fields (d : datetime) := [year d; month d; day d; hour d; minute d; second d] in
  (fix lex (xs ys : list Z) : bool :=
     match xs, ys with
     | x :: xs', y :: ys' => (x <? y) || ((x =? y) && lex xs' ys')
     | _, _ => false
     end) (fields a) (fields b).

(** [d + timedelta(days=1)] *)
Definition add_one_day (d : datetime) : result datetime :=
  if day d <? days_in_month (year d) (month d) then
    Ok {| year := year d; month := month d; day := day d + 1;
          hour := hour d; minute := minute d; second := second d |}
  else if month d <? 12 then
    Ok {| year := year d; month := month d + 1; day := 1;
          hour := hour d; minute := minute d; second := second d |}
  else if year d <? 9999 then
    Ok {| year := year d + 1; month := 1; day := 1;
          hour := hour d; minute := minute d; second := second d |}
  else Raise OverflowError.

Definition seconds_of_day (d : datetime) : Z :=
  hour d * 3600 + minute d * 60 + second d.

(** [a - b] *)
Definition datetime_sub (a b : datetime) : timedelta :=
  let total := (toordinal a - toordinal b) * 86400
               + (seconds_of_day a - seconds_of_day b) in
  {| td_days := total / 86400; td_seconds := total mod 86400 |}.

(** [str(n)] for an integer, as in an f-string. *)
Definition str_of_int (n : Z) : str :=
  py (DecimalString.NilZero.string_of_int (Z.to_int n)).

(** A number on at least [width] digits, padded with zeros. *)
Definition zero_pad (width : nat) (n : Z) : str :=
  let s := str_of_int n in
  repeat 48 (width - List.length s) ++ s.

(** [d.strftime("%d/%m/%Y")] *)
Definition strftime_dmY (d : datetime) : str :=
  zero_pad 2 (day d) ++ [47] ++ zero_pad 2 (month d) ++ [47] ++ zero_pad 4 (year d).

Section Strptime.
Variable U : unicode_db.

(** [datetime.strptime(data, "%H:%M")]: the data must match the pattern
    of the format from its start and to its end; the fields that the
    format does not give default to 1900-01-01 and zero seconds. *)
Definition strptime_HM (data : str) : result datetime :=
  match re_match (re_HM U) data with
  | None => Raise ValueError
  | Some found =>
      if negb (Nat.eqb (List.length data) (m_end found)) then Raise ValueError
      else
        (H <- py_int U (group found 1) ;;
         M <- py_int U (group found 2) ;;
         datetime_new 1900 1 1 H M 0)%py
  end.
End Strptime.

(* ================================================================== *)
(** ** The agent's data *)

(** An entity of [doc.ents]: its label [ent.label_] and its text
    [ent.text]. *)
Record entity : Type := {
  label_ : str;
  text_ : str
}.

(** The [requirements] dict of [extract_requirements], key by key. *)
Record req_dict : Type := {
  profession : list str;
  shifts : list str;
  locations : list str;
  dates : list str;
  shift_duration : str;
  urgence : bool
}.

Definition set_profession (v : list str) (r : req_dict) : req_dict :=
  {| profession := v; shifts := shifts r; locations := locations r;
     dates := dates r; shift_duration := shift_duration r; urgence := urgence r |}.

Definition set_shifts (v : list str) (r : req_dict) : req_dict :=
  {| profession := profession r; shifts := v; locations := locations r;
     dates := dates r; shift_duration := shift_duration r; urgence := urgence r |}.

Definition set_locations (v : list str) (r : req_dict) : req_dict :=
  {| profession := profession r; shifts := shifts r; locations := v;
     dates := dates r; shift_duration := shift_duration r; urgence := urgence r |}.

Definition set_dates (v : list str) (r : req_dict) : req_dict :=
  {| profession := profession r; shifts := shifts r; locations := locations r;
     dates := v; shift_duration := shift_duration r; urgence := urgence r |}.

Definition set_shift_duration (v : str) (r : req_dict) : req_dict :=
  {| profession := profession r; shifts := shifts r; locations := locations r;
     dates := dates r; shift_duration := v; urgence := urgence r |}.

Definition set_urgence (v : bool) (r : req_dict) : req_dict :=
  {| profession := profession r; shifts := shifts r; locations := locations r;
     dates := dates r; shift_duration := shift_duration r; urgence := v |}.

(** The dict [extract_requirements] starts from. *)
Definition empty_requirements : req_dict :=
  {| profession := []; shifts := []; locations := []; dates := [];
     shift_duration := []; urgence := false |}.

(** [self.location_blacklist] *)
Definition location_blacklist : list str :=
  [py "bonjour"; py "merci"; py "service"; py "rh"; py "cordialement"].

(** [urgency_keywords] *)
Definition urgency_keywords : list str :=
  [py "urgent"; py "urgence"; py "immédiat"; py "asap"; py "rapidement"].

(** The value of [parse_email]. *)
Record parsed_email : Type := {
  subject : str;
  body : str;
  from : str;
  date : str
}.

(** An element of the list [process_emails] returns. *)
Record processed : Type := {
  res_id : Z;
  res_classification : str;
  res_requirements : req_dict;
  res_from : str;
  res_date : str;
  res_processed : bool
}.

(* ================================================================== *)
(** ** The extraction methods *)

Section Extraction.
Variable U : unicode_db.

(** [dateutil.parser.parse(text, dayfirst=True, fuzzy=True)], a library
    the repository imports: the date it reads in [text], or the exception
    it raises. *)
Variable parser_parse : str -> result datetime.

(** [list(set(xs))]: the distinct elements of [xs] in the iteration order
    of the set, which depends on the hashes of the strings. *)
Variable list_of_set : list str -> list str.

(** [self.nlp(text).ents]: the entities of the spaCy pipeline with the
    rules of [_setup_nlp_pipeline] added. *)
Variable nlp : str -> result (list entity).

(** [_parse_date]: the updated dict stands for the mutation of
    [requirements]. *)
Definition _parse_date (text : str) (requirements : req_dict)
  : result req_dict :=
  try_except
    (date <- parser_parse text ;;
     if (2020 <? year date) && (year date <? 2030)
     then Ok (set_dates (dates requirements ++ [strftime_dmY date]) requirements)
     else Ok requirements)%py
    (fun _ => Ok requirements).

(** [_calculate_shift_duration] *)
Definition _calculate_shift_duration (text : str) : result str :=
  match re_search (re_time_range U) text with
  | Some time_match =>
      try_except
        (start <- strptime_HM U (replace_char 104 58 (group time_match 1)) ;;
         end_ <- strptime_HM U (replace_char 104 58 (group time_match 2)) ;;
         end_ <- (if datetime_ltb end_ start then add_one_day end_ else Ok end_) ;;
         let duration := datetime_sub end_ start in
         Ok (str_of_int (td_seconds duration / 3600) ++ py "h"))%py
        (fun _ => Ok [])
  | None => Ok []
  end.

(** One turn of the loop [for ent in doc.ents]. *)
Definition route_entity (requirements : req_dict) (ent : entity)
  : result req_dict :=
  if str_mem (label_ ent) [py "GPE"; py "LOC"]
     && negb (str_mem (str_lower U (text_ ent)) location_blacklist)
  then Ok (set_locations (locations requirements ++ [text_ ent]) requirements)
  else if str_eqb (label_ ent) (py "DATE")
  then _parse_date (text_ ent) requirements
  else if str_eqb (label_ ent) (py "MEDICAL_PROFESSION")
  then Ok (set_profession (profession requirements ++ [str_upper U (text_ ent)])
             requirements)
  else if str_eqb (label_ ent) (py "SHIFT_TIME")
  then Ok (set_shifts (shifts requirements ++ [str_lower U (text_ ent)]) requirements)
  else if str_eqb (label_ ent) (py "URGENCY")
  then Ok (set_urgence true requirements)
  else Ok requirements.

Fixpoint route_entities (requirements : req_dict) (ents : list entity)
  : result req_dict :=
  match ents with
  | [] => Ok requirements
  | ent :: ents' =>
      (requirements <- route_entity requirements ent ;;
       route_entities requirements ents')%py
  end.

(** The loop [for date in date_matches]. *)
Fixpoint add_date_matches (date_matches : list str) (ds : list str) : list str :=
  match date_matches with
  | [] => ds
  | date :: rest =>
      add_date_matches rest (if negb (str_mem date ds) then ds ++ [date] else ds)
  end.

(** The body of [extract_requirements] once [doc.ents] is known. *)
Definition extract_from_ents (text : str) (ents : list entity)
  : result req_dict :=
  (requirements <- route_entities empty_requirements ents ;;
   let date_matches := re_findall (re_date U) text in
   let requirements :=
     set_dates (add_date_matches date_matches (dates requirements)) requirements in
   let requirements :=
     if existsb (fun word => str_contains (str_lower U text) word) urgency_keywords
     then set_urgence true requirements else requirements in
   duration <- _calculate_shift_duration text ;;
   let requirements := set_shift_duration duration requirements in
   let requirements := set_profession (list_of_set (profession requirements)) requirements in
   let requirements := set_shifts (list_of_set (shifts requirements)) requirements in
   let requirements := set_locations (list_of_set (locations requirements)) requirements in
   Ok requirements)%py.

(** [extract_requirements] *)
Definition extract_requirements (text : str) : result req_dict :=
  (ents <- nlp text ;; extract_from_ents text ents)%py.

(** The expression
    [requirements["profession"][0] if requirements["profession"] else "non_classe"]
    of [process_emails]. *)
Definition classify (requirements : req_dict) : str :=
  match profession requirements with
  | first :: _ => first
  | [] => py "non_classe"
  end.
End Extraction.

(* ================================================================== *)
(** ** The mailbox *)

(** A computation on the mailbox: it changes the state [W] of the IMAP
    session and of the server, and returns a value or raises. The state
    reached when an exception is raised is kept. *)
Definition io (W A : Type) : Type := W -> result A * W.

Definition io_ret {W A : Type} (a : A) : io W A := fun w => (Ok a, w).

Definition io_raise {W A : Type} (e : exn) : io W A := fun w => (Raise e, w).

Definition io_bind {W A B : Type} (m : io W A) (f : A -> io W B) : io W B :=
  fun w =>
    match m w with
    | (Ok a, w') => f a w'
    | (Raise e, w') => (Raise e, w')
    end.

(** A computation that does not touch the mailbox. *)
Definition io_lift {W A : Type} (m : result A) : io W A := fun w => (m, w).

(** [try: body  except Exception: handler] on the mailbox. *)
Definition io_try {W A : Type} (body : io W A) (handler : exn -> io W A) : io W A :=
  fun w =>
    match body w with
    | (Ok a, w') => (Ok a, w')
    | (Raise e, w') => handler e w'
    end.

Notation "x <~ m ;; k" := (io_bind m (fun x => k))
  (at level 61, m at next level, right associativity) : py_scope.

(** The calls the agent makes on [imapclient] and [email], the other
    libraries the repository imports, over the state [W]; [raw] is the
    type of a fetched message. *)
Record mail_api (W raw : Type) : Type := {
  (** [self.conn = imapclient.IMAPClient(os.getenv("IMAP_SERVER"), ssl=True)] *)
  imap_open : io W unit;
  (** [self.conn.login(os.getenv("EMAIL_USER"), os.getenv("EMAIL_PASSWORD"))] *)
  imap_login : io W unit;
  (** [self.conn.select_folder(name)] *)
  imap_select_folder : str -> io W unit;
  (** [self.conn.search(["UNSEEN"])] *)
  imap_search_unseen : io W (list Z);
  (** [self.conn.fetch([email_id], ["BODY[]"])[email_id]] *)
  imap_fetch : Z -> io W raw;
  (** [[folder[-1] for folder in self.conn.list_folders()]] *)
  imap_list_folders : io W (list str);
  (** [self.conn.create_folder(name)] *)
  imap_create_folder : str -> io W unit;
  (** [self.conn.move([email_id], name)] *)
  imap_move : Z -> str -> io W unit;
  (** [parse_email(raw_email)], the decoding done with [email] *)
  parse_email : raw -> result parsed_email
}.

Section Mailbox.
Variable U : unicode_db.
Variable parser_parse : str -> result datetime.
Variable list_of_set : list str -> list str.
Variable nlp : str -> result (list entity).
Variables W raw : Type.
Variable api : mail_api W raw.

(** [connect]: an exception of the connection is printed and dropped. *)
Definition connect : io W unit :=
  io_try
    (_ <~ imap_open api ;;
     _ <~ imap_login api ;;
     imap_select_folder api (py "INBOX"))%py
    (fun _ => io_ret tt).

(** [mark_as_processed] *)
Definition mark_as_processed (email_id : Z) : io W unit :=
  io_try
    (folders <~ imap_list_folders api ;;
     _ <~ (if negb (str_mem (py "Processed") folders)
           then imap_create_folder api (py "Processed")
           else io_ret tt) ;;
     imap_move api email_id (py "Processed"))%py
    (fun _ => io_ret tt).

(** The loop [for email_id in emails] of [process_emails]; [results] is
    the list built so far. *)
Fixpoint process_loop (emails : list Z) (results : list processed)
  : io W (list processed) :=
  match emails with
  | [] => io_ret results
  | email_id :: emails' =>
      (raw_email <~ imap_fetch api email_id ;;
       parsed_email <~ io_lift (parse_email api raw_email) ;;
       requirements <~ io_lift
         (extract_requirements U parser_parse list_of_set nlp
            (subject parsed_email ++ [10] ++ body parsed_email)) ;;
       let classification := classify requirements in
       let results :=
         results ++ [ {| res_id := email_id;
                         res_classification := classification;
                         res_requirements := requirements;
                         res_from := from parsed_email;
                         res_date := date parsed_email;
                         res_processed := true |} ] in
       _ <~ mark_as_processed email_id ;;
       process_loop emails' results)%py
  end.

(** [process_emails]: the returned list and the final state. *)
Definition process_emails : W -> list processed * W :=
  fun w =>
    let (_, w) := connect w in
    match io_bind (imap_search_unseen api) (fun emails => process_loop emails []) w with
    | (Ok results, w') => (results, w')
    | (Raise _, w') => ([], w')
    end.
End Mailbox.

(* ================================================================== *)
(** ** Stand-ins for the libraries *)

(** The definitions of this part are not the libraries: they are small
    instances of their interfaces, on which the model can be run. *)

Definition ascii_digit (c : codepoint) : bool := between 48 57 c.

(** The day, month and year written in a string of the shape
    [DD/MM/YYYY] with ASCII digits. *)
Definition dmY_fields (s : str) : option (Z * Z * Z) :=
  match s with
  | [d1; d2; 47; m1; m2; 47; y1; y2; y3; y4] =>
      if forallb ascii_digit [d1; d2; m1; m2; y1; y2; y3; y4]
      then Some (10 * (d1 - 48) + (d2 - 48),
                 10 * (m1 - 48) + (m2 - 48),
                 1000 * (y1 - 48) + 100 * (y2 - 48) + 10 * (y3 - 48) + (y4 - 48))
      else None
  | _ => None
  end.

(** A date reader that knows the shape [DD/MM/YYYY] only. *)
Definition numeric_parser (s : str) : result datetime :=
  match dmY_fields s with
  | Some (d, m, y) => datetime_new y m d 0 0 0
  | None => Raise ValueError
  end.

Definition date_2025_03_15 : datetime :=
  {| year := 2025; month := 3; day := 15; hour := 0; minute := 0; second := 0 |}.

Definition date_2031_03_15 : datetime :=
  {| year := 2031; month := 3; day := 15; hour := 0; minute := 0; second := 0 |}.

(** The match of the time range in [de 25h00 au 7h00]. *)
Definition match_25h00_7h00 : match_obj :=
  {| m_subject := py "25h00 au 7h00"; m_end := 13;
     m_caps := [(2%nat, (9%nat, 13%nat)); (1%nat, (0%nat, 5%nat))] |}.

(** The distinct elements in the order of their last occurrence. *)
Definition distinct (xs : list str) : list str := nodup (list_eq_dec Z.eq_dec) xs.

(** A pipeline that finds no entity. *)
Definition no_entities (text : str) : result (list entity) := Ok [].

(** A mailbox with three unseen messages, of which the second cannot be
    fetched.  Its state is the journal of the messages fetched and moved
    so far. *)
Inductive mail_event : Type :=
| Fetched (email_id : Z)
| Moved (email_id : Z).

Definition sample_email (email_id : Z) : parsed_email :=
  {| subject := py "Besoin";
     body := py "un PAB pour un quart de soir, 15h00-23h00";
     from := py "rh@example.org";
     date := str_of_int email_id |}.

Definition faulty_mailbox : mail_api (list mail_event) parsed_email := {|
  imap_open := io_ret tt;
  imap_login := io_ret tt;
  imap_select_folder := fun _ => io_ret tt;
  imap_search_unseen := io_ret [1; 2; 3];
  imap_fetch := fun email_id w =>
    if email_id =? 2 then (Raise IMAPClientError, w)
    else (Ok (sample_email email_id), w ++ [Fetched email_id]);
  imap_list_folders := io_ret [py "INBOX"; py "Processed"];
  imap_create_folder := fun _ => io_ret tt;
  imap_move := fun email_id _ w => (Ok tt, w ++ [Moved email_id]);
  parse_email := fun raw_email => Ok raw_email
|}.

(** The same mailbox, but every message can be fetched and none can be
    moved. *)
Definition read_only_mailbox : mail_api (list mail_event) parsed_email := {|
  imap_open := io_ret tt;
  imap_login := io_ret tt;
  imap_select_folder := fun _ => io_ret tt;
  imap_search_unseen := io_ret [1; 2; 3];
  imap_fetch := fun email_id w => (Ok (sample_email email_id), w ++ [Fetched email_id]);
  imap_list_folders := io_ret [py "INBOX"];
  imap_create_folder := fun _ => io_raise IMAPClientError;
  imap_move := fun _ _ => io_raise IMAPClientError;
  parse_email := fun raw_email => Ok raw_email
|}.

(* ================================================================== *)
(** ** Notions of the statements *)

(** [word] occurs in [text] when case is ignored: it is a substring of
    the lower-cased text. *)
Definition occurs_ignoring_case (U : unicode_db) (word text : str) : Prop :=
  exists before after, str_lower U text = before ++ word ++ after.

(** The entity has one of the two place labels of spaCy. *)
Definition place_labelled (ent : entity) : Prop :=
  label_ ent = py "GPE" \/ label_ ent = py "LOC".

(** The shape of the date pattern: two digits, a slash, two digits, a
    slash, four digits. *)
Definition date_shape (U : unicode_db) (token : str) : bool :=
  match token with
  | [d0; d1; c2; d3; d4; c5; d6; d7; d8; d9] =>
      (c2 =? 47) && (c5 =? 47)
      && forallb (is_decimal U) [d0; d1; d3; d4; d6; d7; d8; d9]
  | _ => false
  end.

(** The last character of [s], or [prev] when [s] is empty. *)
Definition last_char (prev : option codepoint) (s : str) : option codepoint :=
  fold_left (fun _ c => Some c) s prev.

(** [token] stands in a text between [before] and [after] as a word of
    its own: it has the shape of a date and no letter, digit or
    underscore touches it. *)
Definition date_token (U : unicode_db) (before token after : str) : Prop :=
  date_shape U token = true
  /\ opt_class (is_word U) (last_char None before) = false
  /\ opt_class (is_word U) (hd_error after) = false.

(** The entities of a message that gives the same date twice. *)
Definition date_entity : entity :=
  {| label_ := py "DATE"; text_ := py "15/03/2025" |}.

Definition text_with_repeated_date : str :=
  py "Quart de nuit le 15/03/2025, confirmé pour le 15/03/2025".

(** Two place entities, the first of which is a greeting. *)
Definition greeting_entities : list entity :=
  [ {| label_ := py "LOC"; text_ := py "Merci" |};
    {| label_ := py "GPE"; text_ := py "Montréal" |} ].

(** The message of the end-to-end scenario. *)
Definition night_shift_request : str :=
  py "Besoin d'une infirmière urgent pour un quart de nuit à Montréal le 15/03/2025, de 19h à 7h".

(** The entities that the rules of [_setup_nlp_pipeline] find in the
    message of the end-to-end scenario. *)
Definition night_shift_entities : list entity :=
  [ {| label_ := py "MEDICAL_PROFESSION"; text_ := py "infirmière" |};
    {| label_ := py "URGENCY"; text_ := py "urgent" |};
    {| label_ := py "SHIFT_TIME"; text_ := py "quart de nuit" |} ].

(** A clock time as the messages write it: the hour, the letter [h]
    (104) or [H] (72), and the minutes on two digits. *)
Definition clock_text (letter : codepoint) (h m : Z) : str :=
  str_of_int h ++ [letter] ++ zero_pad 2 m.

(** One or two ASCII digits, [letter], two ASCII digits. *)
Definition clock_shaped (letter : codepoint) (g : str) : Prop :=
  (exists a c d,
      g = [a; letter; c; d]
      /\ Forall (fun x => ascii_digit x = true) [a; c; d])
  \/ (exists a b c d,
        g = [a; b; letter; c; d]
        /\ Forall (fun x => ascii_digit x = true) [a; b; c; d]).

(** Some of the ways the pattern lets the two times be joined. *)
Definition connectors : list str :=
  [py "-"; py "à"; py "au"; py " - "; py " à "; py " au "; py " À "; py " AU "].

(** A result as [process_emails] builds it: flagged as processed, and
    classified from its own requirements. *)
Definition well_formed_result (r : processed) : Prop :=
  res_processed r = true /\ res_classification r = classify (res_requirements r).

(** One of the five urgency keywords of [extract_requirements]. *)
Definition is_urgency_keyword (word : str) : Prop :=
  word = py "urgent" \/ word = py "urgence" \/ word = py "immédiat"
  \/ word = py "asap" \/ word = py "rapidement".

(** [variant] is [word] with each letter either as it is or as its
    capital, 32 code points below. *)
Definition same_letters (variant word : str) : Prop :=
  Forall2 (fun v k => v = k \/ v = k - 32) variant word.

(** The flag that [extract_requirements] gives to a text in which the
    pipeline finds no entity. *)
Definition urgent_without_entity
    (U : unicode_db) (parser_parse : str -> result datetime)
    (list_of_set : list str -> list str) (text : str) : option bool :=
  match extract_from_ents U parser_parse list_of_set text [] with
  | Ok requirements => Some (urgence requirements)
  | Raise _ => None
  end.

(* ================================================================== *)
(** * Properties *)

Unset Implicit Arguments.

(** ** Strings *)

Lemma str_eqb_eq (a b : str) : str_eqb a b = true <-> a = b.
Proof.
  unfold str_eqb. destruct (list_eq_dec Z.eq_dec a b); split; congruence.
Qed.

Lemma str_eqb_refl (a : str) : str_eqb a a = true.
Proof. now apply str_eqb_eq. Qed.

Lemma str_eqb_neq (a b : str) : str_eqb a b = false <-> a <> b.
Proof.
  unfold str_eqb. destruct (list_eq_dec Z.eq_dec a b); split; congruence.
Qed.

Lemma str_mem_In (x : str) (xs : list str) : str_mem x xs = true <-> In x xs.
Proof.
  unfold str_mem. rewrite existsb_exists. split.
  - intros [y [Hy E]]. apply str_eqb_eq in E. now subst.
  - intros H. exists x. split; [assumption | apply str_eqb_refl].
Qed.

Lemma str_mem_not_In (x : str) (xs : list str) : str_mem x xs = false <-> ~ In x xs.
Proof.
  rewrite <- str_mem_In. destruct (str_mem x xs); split; congruence.
Qed.

Lemma starts_with_prefix (s sub : str) :
  starts_with s sub = true <-> exists post, s = sub ++ post.
Proof.
  revert s. induction sub as [|y sub IH]; intros s; simpl.
  - split; [intros _; now exists s | reflexivity].
  - destruct s as [|x s].
    + split; [discriminate | intros [post E]; discriminate].
    + rewrite andb_true_iff, Z.eqb_eq, IH. split.
      * intros [-> [post ->]]. now exists post.
      * intros [post E]. injection E as -> ->. split; [reflexivity | now exists post].
Qed.

(** [sub in s] holds exactly when [s] is [pre ++ sub ++ post]. *)
Lemma str_contains_infix (s sub : str) :
  str_contains s sub = true <-> exists pre post, s = pre ++ sub ++ post.
Proof.
  induction s as [|x s IH].
  - simpl. rewrite orb_false_r, starts_with_prefix. split.
    + intros [post E]. now exists [], post.
    + intros [pre [post E]]. destruct pre; [now exists post | discriminate].
  - cbn [str_contains]. rewrite orb_true_iff, starts_with_prefix, IH. split.
    + intros [[post E] | [pre [post E]]].
      * now exists [], post.
      * exists (x :: pre), post. now rewrite E.
    + intros [pre [post E]]. destruct pre as [|p pre].
      * left. now exists post.
      * right. injection E as -> E. now exists pre, post.
Qed.

Example py_literal :
  py "de 19h à 7h" = [100; 101; 32; 49; 57; 104; 32; 224; 32; 55; 104].
Proof. reflexivity. Qed.

Example lower_merci : str_lower latin1_db (py "MERCI") = py "merci".
Proof. reflexivity. Qed.

Example upper_infirmiere :
  str_upper latin1_db (py "infirmière") = py "INFIRMIÈRE".
Proof. reflexivity. Qed.

(** ** Dates as text *)

Lemma forall_below (P : Z -> bool) (n : nat) :
  forallb (fun k => P (Z.of_nat k)) (seq 0 n) = true ->
  forall z, 0 <= z < Z.of_nat n -> P z = true.
Proof.
  intros H z Hz. rewrite forallb_forall in H.
  specialize (H (Z.to_nat z)). rewrite Z2Nat.id in H by lia.
  apply H. apply in_seq. lia.
Qed.

Lemma zero_pad_2 (n : Z) :
  0 <= n < 100 -> zero_pad 2 n = [48 + n / 10; 48 + n mod 10].
Proof.
  intros Hn. apply str_eqb_eq.
  apply (forall_below
           (fun n => str_eqb (zero_pad 2 n) [48 + n / 10; 48 + n mod 10]) 100);
    [vm_compute; reflexivity | assumption].
Qed.

Lemma zero_pad_4 (n : Z) :
  0 <= n < 10000 ->
  zero_pad 4 n =
    [48 + n / 1000; 48 + (n / 100) mod 10; 48 + (n / 10) mod 10; 48 + n mod 10].
Proof.
  intros Hn. apply str_eqb_eq.
  apply (forall_below
           (fun n => str_eqb (zero_pad 4 n)
                       [48 + n / 1000; 48 + (n / 100) mod 10;
                        48 + (n / 10) mod 10; 48 + n mod 10]) (Z.to_nat 10000));
    [vm_compute; reflexivity | lia].
Qed.

Lemma days_in_month_bound (y m : Z) : 28 <= days_in_month y m <= 31.
Proof.
  unfold days_in_month.
  destruct (m =? 2); [destruct (is_leap y); lia |].
  destruct ((m =? 4) || (m =? 6) || (m =? 9) || (m =? 11)); lia.
Qed.

Lemma between_spec (lo hi c : Z) : between lo hi c = true <-> lo <= c <= hi.
Proof. unfold between. rewrite andb_true_iff, !Z.leb_le. tauto. Qed.

Lemma valid_datetime_spec (d : datetime) :
  valid_datetime d = true ->
  1 <= year d <= 9999 /\ 1 <= month d <= 12 /\ 1 <= day d <= 31
  /\ 0 <= hour d <= 23 /\ 0 <= minute d <= 59 /\ 0 <= second d <= 59.
Proof.
  unfold valid_datetime. rewrite !andb_true_iff, !between_spec.
  pose proof (days_in_month_bound (year d) (month d)). lia.
Qed.

(** [strftime("%d/%m/%Y")] writes a valid date on ten characters, from
    which day, month and year are read back. *)
Lemma strftime_dmY_fields (d : datetime) :
  valid_datetime d = true ->
  dmY_fields (strftime_dmY d) = Some (day d, month d, year d).
Proof.
  intros V. apply valid_datetime_spec in V.
  destruct V as (Hy & Hm & Hd & _).
  unfold strftime_dmY.
  rewrite (zero_pad_2 (day d)), (zero_pad_2 (month d)),
    (zero_pad_4 (year d)) by lia.
  cbn [app dmY_fields].
  replace (forallb ascii_digit _) with true.
  - f_equal. f_equal; [f_equal |]; Z.div_mod_to_equations; lia.
  - symmetry. cbn [forallb]. unfold ascii_digit.
    rewrite !andb_true_iff, !between_spec.
    repeat split; Z.div_mod_to_equations; lia.
Qed.

(** ** The classification *)

(** C2, as the code has it: a record without profession is classified
    under the label [non_classe], and a record with professions under the
    first of them. *)
Theorem classify_first_or_non_classe (requirements : req_dict) :
  (profession requirements = [] -> classify requirements = py "non_classe")
  /\ (forall first others,
        profession requirements = first :: others ->
        classify requirements = first).
Proof.
  unfold classify. split.
  - intros ->. reflexivity.
  - intros first others ->. reflexivity.
Qed.

Lemma classify_first_or_non_classe_witness :
  (profession empty_requirements = []
   /\ classify empty_requirements = py "non_classe")
  /\ (profession (set_profession [py "PAB"; py "INF"] empty_requirements)
        = [py "PAB"; py "INF"]
      /\ classify (set_profession [py "PAB"; py "INF"] empty_requirements)
          = py "PAB").
Proof.
  split.
  - split; [reflexivity |].
    exact (proj1 (classify_first_or_non_classe empty_requirements) eq_refl).
  - split; [reflexivity |].
    exact (proj2 (classify_first_or_non_classe
                    (set_profession [py "PAB"; py "INF"] empty_requirements))
             (py "PAB") [py "INF"] eq_refl).
Defined.

(** C2, as the claim words it, fails: the label of a record without
    profession is not [unclassified]. *)
Lemma classify_empty_not_unclassified :
  profession empty_requirements = []
  /\ classify empty_requirements <> py "unclassified".
Proof.
  split; [reflexivity |]. vm_compute. discriminate.
Qed.

(** ** [_parse_date] *)

(** C5: a date read by the parser is kept only when its year lies
    strictly between 2020 and 2030. It is then appended at the end of
    [dates], as ten characters [DD/MM/YYYY] with zero-padded day and
    month (5 March 2025 gives [05/03/2025]), and the other keys are
    left as they were; a date of 2020 or before, or of 2030 or after,
    leaves the dict, and so [dates], as it was. *)
Theorem parse_date_plausible_year
    (parser_parse : str -> result datetime) (text : str)
    (requirements : req_dict) (d : datetime) :
  parser_parse text = Ok d ->
  valid_datetime d = true ->
  (2020 < year d < 2030 ->
     exists requirements',
       _parse_date parser_parse text requirements = Ok requirements'
       /\ dates requirements' = dates requirements ++ [strftime_dmY d]
       /\ List.length (dates requirements')
          = S (List.length (dates requirements))
       /\ profession requirements' = profession requirements
       /\ shifts requirements' = shifts requirements
       /\ locations requirements' = locations requirements
       /\ shift_duration requirements' = shift_duration requirements
       /\ urgence requirements' = urgence requirements
       /\ List.length (strftime_dmY d) = 10%nat
       /\ dmY_fields (strftime_dmY d) = Some (day d, month d, year d))
  /\ (year d <= 2020 \/ 2030 <= year d ->
        _parse_date parser_parse text requirements = Ok requirements
        /\ exists requirements',
             _parse_date parser_parse text requirements = Ok requirements'
             /\ dates requirements' = dates requirements)
  /\ strftime_dmY {| year := 2025; month := 3; day := 5;
                     hour := 0; minute := 0; second := 0 |}
     = py "05/03/2025"
  /\ strftime_dmY {| year := 2029; month := 12; day := 31;
                     hour := 23; minute := 59; second := 59 |}
     = py "31/12/2029".
Proof.
  intros P V. split; [| split; [| split; reflexivity]].
  - intros [Hlo Hhi]. unfold _parse_date. rewrite P. cbn [bind try_except].
    apply Z.ltb_lt in Hlo, Hhi. rewrite Hlo, Hhi. cbn [andb].
    eexists. split; [reflexivity |].
    cbn [dates profession shifts locations shift_duration urgence set_dates].
    split; [reflexivity |].
    split; [rewrite length_app; cbn [List.length]; apply Nat.add_1_r |].
    do 5 (split; [reflexivity |]).
    split; [| now apply strftime_dmY_fields].
    apply valid_datetime_spec in V. destruct V as (Hy & Hm & Hd & _).
    unfold strftime_dmY.
    rewrite (zero_pad_2 (day d)), (zero_pad_2 (month d)), (zero_pad_4 (year d))
      by lia.
    reflexivity.
  - intros Hout. unfold _parse_date. rewrite P. cbn [bind try_except].
    replace ((2020 <? year d) && (year d <? 2030)) with false.
    + split; [reflexivity |]. now exists requirements.
    + symmetry. apply andb_false_iff. rewrite !Z.ltb_ge. lia.
Qed.

Lemma parse_date_plausible_year_witness :
  numeric_parser (py "05/03/2025")
     = Ok {| year := 2025; month := 3; day := 5;
             hour := 0; minute := 0; second := 0 |}
  /\ valid_datetime {| year := 2025; month := 3; day := 5;
                       hour := 0; minute := 0; second := 0 |} = true
  /\ 2020 < 2025 < 2030
  /\ exists requirements',
       _parse_date numeric_parser (py "05/03/2025")
         (set_dates [py "15/03/2025"] empty_requirements)
       = Ok requirements'
       /\ dates requirements' = [py "15/03/2025"; py "05/03/2025"].
Proof.
  pose (d := {| year := 2025; month := 3; day := 5;
                hour := 0; minute := 0; second := 0 |}).
  assert (P : numeric_parser (py "05/03/2025") = Ok d) by reflexivity.
  assert (V : valid_datetime d = true) by reflexivity.
  assert (Y : 2020 < year d < 2030) by (cbn; lia).
  split; [exact P |]. split; [exact V |]. split; [exact Y |].
  destruct (proj1 (parse_date_plausible_year numeric_parser (py "05/03/2025")
                     (set_dates [py "15/03/2025"] empty_requirements) d P V) Y)
    as (r' & E & D & _).
  exists r'. split; [exact E | exact D].
Defined.

(** [_parse_date] returns normally whatever the parser does, and touches
    no key but [dates], to which it appends at most one string. *)
Lemma parse_date_frame
    (parser_parse : str -> result datetime) (text : str) (requirements : req_dict) :
  exists requirements' added,
    _parse_date parser_parse text requirements = Ok requirements'
    /\ dates requirements' = dates requirements ++ added
    /\ profession requirements' = profession requirements
    /\ shifts requirements' = shifts requirements
    /\ locations requirements' = locations requirements
    /\ shift_duration requirements' = shift_duration requirements
    /\ urgence requirements' = urgence requirements.
Proof.
  unfold _parse_date.
  destruct (parser_parse text) as [d | e]; cbn [bind try_except].
  - destruct ((2020 <? year d) && (year d <? 2030)).
    + eexists. exists [strftime_dmY d]. repeat split.
    + exists requirements. exists []. rewrite app_nil_r. repeat split.
  - exists requirements. exists []. rewrite app_nil_r. repeat split.
Qed.

(** [_calculate_shift_duration] returns normally on every text. *)
Lemma calculate_shift_duration_total (U : unicode_db) (text : str) :
  exists duration, _calculate_shift_duration U text = Ok duration.
Proof.
  unfold _calculate_shift_duration.
  destruct (re_search (re_time_range U) text) as [m |]; [| now exists []].
  destruct (strptime_HM U (replace_char 104 58 (group m 1))) as [start | e];
    cbn [bind try_except]; [| now exists []].
  destruct (strptime_HM U (replace_char 104 58 (group m 2))) as [end_ | e];
    cbn [bind try_except]; [| now exists []].
  destruct (if datetime_ltb end_ start then add_one_day end_ else Ok end_)
    as [end' | e]; cbn [bind try_except]; [| now exists []].
  eexists. reflexivity.
Qed.

(** C8: no exception leaves [_parse_date] or [_calculate_shift_duration].
    When the parser raises or the year is out of range, [_parse_date]
    returns with the dict unchanged; when the text has no time range or
    one of its two times is refused by [strptime],
    [_calculate_shift_duration] returns the empty string. *)
Theorem parse_failures_are_absorbed
    (U : unicode_db) (parser_parse : str -> result datetime)
    (text : str) (requirements : req_dict) :
  (exists requirements',
      _parse_date parser_parse text requirements = Ok requirements')
  /\ (forall e, parser_parse text = Raise e ->
        _parse_date parser_parse text requirements = Ok requirements)
  /\ (forall d, parser_parse text = Ok d ->
        year d <= 2020 \/ 2030 <= year d ->
        _parse_date parser_parse text requirements = Ok requirements)
  /\ (exists duration, _calculate_shift_duration U text = Ok duration)
  /\ (re_search (re_time_range U) text = None ->
        _calculate_shift_duration U text = Ok [])
  /\ (forall time_match e,
        re_search (re_time_range U) text = Some time_match ->
        strptime_HM U (replace_char 104 58 (group time_match 1)) = Raise e
        \/ strptime_HM U (replace_char 104 58 (group time_match 2)) = Raise e ->
        _calculate_shift_duration U text = Ok []).
Proof.
  split; [| split; [| split; [| split; [| split]]]].
  - destruct (parse_date_frame parser_parse text requirements)
      as (r' & added & E & _).
    now exists r'.
  - intros e P. unfold _parse_date. now rewrite P.
  - intros d P Hout. unfold _parse_date. rewrite P. cbn [bind try_except].
    replace ((2020 <? year d) && (year d <? 2030)) with false; [reflexivity |].
    symmetry. apply andb_false_iff. rewrite !Z.ltb_ge. lia.
  - apply calculate_shift_duration_total.
  - intros S. unfold _calculate_shift_duration. now rewrite S.
  - intros m e S [F | F]; unfold _calculate_shift_duration; rewrite S.
    + now rewrite F.
    + rewrite F.
      now destruct (strptime_HM U (replace_char 104 58 (group m 1))).
Qed.

Lemma parse_failures_are_absorbed_witness :
  (numeric_parser (py "demain matin") = Raise ValueError
   /\ _parse_date numeric_parser (py "demain matin") empty_requirements
       = Ok empty_requirements)
  /\ (numeric_parser (py "15/03/2031") = Ok date_2031_03_15
      /\ (year date_2031_03_15 <= 2020 \/ 2030 <= year date_2031_03_15)
      /\ _parse_date numeric_parser (py "15/03/2031") empty_requirements
          = Ok empty_requirements)
  /\ (re_search (re_time_range latin1_db) (py "demain matin") = None
      /\ _calculate_shift_duration latin1_db (py "demain matin") = Ok [])
  /\ (re_search (re_time_range latin1_db) (py "de 25h00 au 7h00")
        = Some match_25h00_7h00
      /\ strptime_HM latin1_db (replace_char 104 58 (group match_25h00_7h00 1))
          = Raise ValueError
      /\ _calculate_shift_duration latin1_db (py "de 25h00 au 7h00") = Ok []).
Proof.
  pose proof (parse_failures_are_absorbed latin1_db numeric_parser
                (py "demain matin") empty_requirements) as A.
  pose proof (parse_failures_are_absorbed latin1_db numeric_parser
                (py "15/03/2031") empty_requirements) as B.
  pose proof (parse_failures_are_absorbed latin1_db numeric_parser
                (py "de 25h00 au 7h00") empty_requirements) as C.
  destruct A as (_ & A1 & _ & _ & A4 & _).
  destruct B as (_ & _ & B2 & _).
  destruct C as (_ & _ & _ & _ & _ & C5).
  assert (P1 : numeric_parser (py "demain matin") = Raise ValueError)
    by reflexivity.
  assert (P2 : numeric_parser (py "15/03/2031") = Ok date_2031_03_15)
    by reflexivity.
  assert (Y : year date_2031_03_15 <= 2020 \/ 2030 <= year date_2031_03_15)
    by (right; simpl; lia).
  assert (S1 : re_search (re_time_range latin1_db) (py "demain matin") = None)
    by reflexivity.
  assert (S2 : re_search (re_time_range latin1_db) (py "de 25h00 au 7h00")
               = Some match_25h00_7h00) by reflexivity.
  assert (F : strptime_HM latin1_db
                (replace_char 104 58 (group match_25h00_7h00 1))
              = Raise ValueError) by reflexivity.
  split; [| split; [| split]].
  - split; [exact P1 | exact (A1 ValueError P1)].
  - split; [exact P2 | split; [exact Y | exact (B2 _ P2 Y)]].
  - split; [exact S1 | exact (A4 S1)].
  - split; [exact S2 | split; [exact F | exact (C5 _ ValueError S2 (or_introl F))]].
Defined.

(** ** The loop over the entities *)

Ltac label_known :=
  repeat match goal with
    | H : str_eqb (label_ ?ent) _ = true |- _ =>
        apply str_eqb_eq in H; rewrite H in *
    | H : str_mem (label_ ?ent) [_; _] = true |- _ =>
        apply str_mem_In in H; destruct H as [H | [H | []]];
        rewrite <- H in *
    end.

(** What one turn of the loop does to each key of the dict. *)
Lemma route_entity_effect
    (U : unicode_db) (parser_parse : str -> result datetime)
    (requirements : req_dict) (ent : entity) :
  exists requirements' added,
    route_entity U parser_parse requirements ent = Ok requirements'
    /\ dates requirements' = dates requirements ++ added
    /\ urgence requirements'
       = urgence requirements || str_eqb (label_ ent) (py "URGENCY")
    /\ locations requirements'
       = locations requirements
         ++ (if str_mem (label_ ent) [py "GPE"; py "LOC"]
                && negb (str_mem (str_lower U (text_ ent)) location_blacklist)
             then [text_ ent] else []).
Proof.
  unfold route_entity.
  destruct (str_mem (label_ ent) [py "GPE"; py "LOC"]
            && negb (str_mem (str_lower U (text_ ent)) location_blacklist)) eqn:Place.
  { apply andb_true_iff in Place. destruct Place as [L _].
    eexists. exists []. split; [reflexivity |]. cbn [dates urgence locations set_locations].
    rewrite app_nil_r. label_known; rewrite orb_false_r; repeat split. }
  destruct (str_eqb (label_ ent) (py "DATE")) eqn:Date.
  { destruct (parse_date_frame parser_parse (text_ ent) requirements)
      as (r' & added & E & Hd & _ & _ & Hl & _ & Hu).
    exists r', added. rewrite E, Hd, Hl, Hu, app_nil_r.
    label_known. rewrite orb_false_r. repeat split. }
  destruct (str_eqb (label_ ent) (py "MEDICAL_PROFESSION")) eqn:Prof.
  { eexists. exists []. split; [reflexivity |].
    cbn [dates urgence locations set_profession].
    rewrite !app_nil_r. label_known. rewrite orb_false_r. repeat split. }
  destruct (str_eqb (label_ ent) (py "SHIFT_TIME")) eqn:Shift.
  { eexists. exists []. split; [reflexivity |].
    cbn [dates urgence locations set_shifts].
    rewrite !app_nil_r. label_known. rewrite orb_false_r. repeat split. }
  destruct (str_eqb (label_ ent) (py "URGENCY")) eqn:Urg.
  { eexists. exists []. split; [reflexivity |].
    cbn [dates urgence locations set_urgence].
    rewrite !app_nil_r, orb_true_r. repeat split. }
  exists requirements. exists []. rewrite !app_nil_r, orb_false_r. repeat split.
Qed.

(** The whole loop: it returns normally; the flag is raised by the
    entities labelled [URGENCY] and by nothing else, and the locations
    are the texts of the entities labelled [GPE] or [LOC] that the
    blacklist lets through, in the order of the entities. *)
Lemma route_entities_effect
    (U : unicode_db) (parser_parse : str -> result datetime)
    (ents : list entity) (requirements : req_dict) :
  exists requirements' added,
    route_entities U parser_parse requirements ents = Ok requirements'
    /\ dates requirements' = dates requirements ++ added
    /\ urgence requirements'
       = urgence requirements
         || existsb (fun ent => str_eqb (label_ ent) (py "URGENCY")) ents
    /\ locations requirements'
       = locations requirements
         ++ map text_
              (filter (fun ent =>
                         str_mem (label_ ent) [py "GPE"; py "LOC"]
                         && negb (str_mem (str_lower U (text_ ent))
                                    location_blacklist)) ents).
Proof.
  revert requirements. induction ents as [|ent ents IH]; intros requirements.
  - exists requirements. exists []. cbn. rewrite !app_nil_r, orb_false_r.
    repeat split.
  - destruct (route_entity_effect U parser_parse requirements ent)
      as (r1 & added1 & E1 & D1 & U1 & L1).
    destruct (IH r1) as (r2 & added2 & E2 & D2 & U2 & L2).
    exists r2. exists (added1 ++ added2).
    cbn [route_entities bind]. rewrite E1. cbn [bind].
    split; [exact E2 |].
    rewrite D2, D1, U2, U1, L2, L1. cbn [existsb filter].
    rewrite <- !app_assoc, orb_assoc. repeat split.
    destruct (str_mem (label_ ent) [py "GPE"; py "LOC"]
              && negb (str_mem (str_lower U (text_ ent)) location_blacklist));
      reflexivity.
Qed.

(** [extract_requirements], once the entities are known, returns
    normally, and its result is made of the result of the loop, of the
    matches of the date pattern, of the keywords and of the duration. *)
Lemma extract_from_ents_result
    (U : unicode_db) (parser_parse : str -> result datetime)
    (list_of_set : list str -> list str) (text : str) (ents : list entity) :
  exists looped duration,
    route_entities U parser_parse empty_requirements ents = Ok looped
    /\ _calculate_shift_duration U text = Ok duration
    /\ extract_from_ents U parser_parse list_of_set text ents
       = Ok {| profession := list_of_set (profession looped);
               shifts := list_of_set (shifts looped);
               locations := list_of_set (locations looped);
               dates := add_date_matches (re_findall (re_date U) text) (dates looped);
               shift_duration := duration;
               urgence :=
                 existsb (fun word => str_contains (str_lower U text) word)
                   urgency_keywords
                 || urgence looped |}.
Proof.
  destruct (route_entities_effect U parser_parse ents empty_requirements)
    as (looped & added & E & _).
  destruct (calculate_shift_duration_total U text) as (duration & D).
  exists looped. exists duration. split; [exact E |]. split; [exact D |].
  unfold extract_from_ents. rewrite E. cbn [bind]. rewrite D. cbn [bind].
  destruct (existsb (fun word => str_contains (str_lower U text) word)
              urgency_keywords); reflexivity.
Qed.

(** ** The urgency flag *)

(** [str.lower] on a text of Latin-1 characters: each capital letter is
    moved by 32 and nothing else changes. *)
Lemma lower_from_latin1 (U : unicode_db) (whole s : str) :
  Forall (fun c => 0 <= c < 256) s ->
  forall i,
    lower_from U whole i s
    = map (fun c => if latin1_upper c then c + 32 else c) s.
Proof.
  induction 1 as [|c s Hc _ IH]; intros i; [reflexivity |].
  cbn [lower_from map]. rewrite IH.
  replace (c =? 931) with false by (symmetry; apply Z.eqb_neq; lia).
  unfold lower_full.
  replace (c <? 256) with true by (symmetry; apply Z.ltb_lt; lia).
  reflexivity.
Qed.

(** A small letter is the lower-case form of itself and of its capital,
    and of nothing else. *)
Lemma lower_is_small_letter (k v : codepoint) :
  latin1_upper k = false -> latin1_upper (k - 32) = true ->
  (if latin1_upper v then v + 32 else v) = k <-> v = k \/ v = k - 32.
Proof.
  intros Hk Hcap. split.
  - destruct (latin1_upper v); intros <-; [right; lia | now left].
  - intros [-> | ->]; [now rewrite Hk |]. rewrite Hcap. lia.
Qed.

Lemma map_lower_same_letters (variant word : str) :
  Forall (fun k => latin1_upper k = false /\ latin1_upper (k - 32) = true) word ->
  map (fun c => if latin1_upper c then c + 32 else c) variant = word
  <-> same_letters variant word.
Proof.
  unfold same_letters. intros H. revert variant.
  induction H as [|k word [Hk Hcap] _ IH]; intros variant.
  - split.
    + intros E. apply map_eq_nil in E. subst. constructor.
    + intros F. inversion F. reflexivity.
  - split.
    + intros E. destruct variant as [|v variant]; [discriminate |].
      cbn [map] in E. injection E as Ev E.
      constructor; [now apply (lower_is_small_letter k v Hk Hcap) | now apply IH].
    + intros F. inversion F as [|v k' variant' word' Hv F']; subst.
      cbn [map]. f_equal; [now apply (lower_is_small_letter k v Hk Hcap) |].
      now apply IH.
Qed.

(** In a text of Latin-1 characters, a word of small letters occurs,
    case ignored, exactly when the text holds the word with each letter
    small or capital. *)
Lemma occurs_ignoring_case_latin1 (U : unicode_db) (word text : str) :
  Forall (fun c => 0 <= c < 256) text ->
  Forall (fun k => latin1_upper k = false /\ latin1_upper (k - 32) = true) word ->
  occurs_ignoring_case U word text
  <-> exists before variant after,
        text = before ++ variant ++ after /\ same_letters variant word.
Proof.
  intros Ht Hw. unfold occurs_ignoring_case, str_lower.
  rewrite (lower_from_latin1 U text text Ht 0%nat). split.
  - intros (b & a & E).
    apply map_eq_app in E. destruct E as (before & rest & -> & _ & E).
    apply map_eq_app in E. destruct E as (variant & after & -> & E & _).
    exists before, variant, after. split; [reflexivity |].
    now apply map_lower_same_letters.
  - intros (before & variant & after & -> & S).
    apply (map_lower_same_letters variant word Hw) in S.
    rewrite !map_app, S. eexists. eexists. reflexivity.
Qed.

Lemma keywords_are_small_letters (word : str) :
  is_urgency_keyword word ->
  In word urgency_keywords
  /\ Forall (fun k => latin1_upper k = false /\ latin1_upper (k - 32) = true) word.
Proof.
  unfold is_urgency_keyword.
  intros [-> | [-> | [-> | [-> | ->]]]]; (split; [cbn; tauto |]);
    repeat constructor.
Qed.

Lemma in_urgency_keywords (word : str) :
  In word urgency_keywords -> is_urgency_keyword word.
Proof.
  unfold is_urgency_keyword. cbn. intros H.
  repeat (destruct H as [<- | H]; [tauto |]). destruct H.
Qed.

(** C6: the flag [urgence] of the extracted record is true exactly when
    some entity is labelled [URGENCY] or one of the five keywords
    [urgent], [urgence], [immédiat], [asap], [rapidement] occurs in the
    text, case ignored; either signal alone suffices.  In a text of
    Latin-1 characters the keyword occurs, case ignored, when the text
    holds it with each letter small or capital.  So [URGENT], [Urgence],
    [IMMÉDIAT], [ASAP] and [Rapidement] raise the flag without any
    entity, an [URGENCY] entity raises it without any keyword, and a text
    with neither leaves it down. *)
Theorem urgence_iff_entity_or_keyword
    (U : unicode_db) (parser_parse : str -> result datetime)
    (list_of_set : list str -> list str) (text : str) (ents : list entity) :
  (exists requirements,
      extract_from_ents U parser_parse list_of_set text ents = Ok requirements
      /\ (urgence requirements = true <->
          (exists ent, In ent ents /\ label_ ent = py "URGENCY")
          \/ (exists word, is_urgency_keyword word
                           /\ occurs_ignoring_case U word text))
      /\ (Forall (fun c => 0 <= c < 256) text ->
          (urgence requirements = true <->
           (exists ent, In ent ents /\ label_ ent = py "URGENCY")
           \/ (exists word before variant after,
                  is_urgency_keyword word
                  /\ text = before ++ variant ++ after
                  /\ same_letters variant word))))
  /\ urgent_without_entity U parser_parse list_of_set
       (py "Besoin URGENT d'un PAB") = Some true
  /\ urgent_without_entity U parser_parse list_of_set
       (py "Urgence au bloc B") = Some true
  /\ urgent_without_entity U parser_parse list_of_set
       (py "Départ IMMÉDIAT") = Some true
  /\ urgent_without_entity U parser_parse list_of_set
       (py "Réponse ASAP svp") = Some true
  /\ urgent_without_entity U parser_parse list_of_set
       (py "Venez Rapidement") = Some true
  /\ urgent_without_entity U parser_parse list_of_set
       (py "Venez rapidement, asap") = Some true
  /\ urgent_without_entity U parser_parse list_of_set
       (py "Bonjour, un PAB pour demain matin") = Some false
  /\ option_map urgence
       (match extract_from_ents U parser_parse list_of_set
                (py "Bonjour, un PAB pour demain matin")
                [ {| label_ := py "URGENCY"; text_ := py "demain" |} ] with
        | Ok requirements => Some requirements
        | Raise _ => None
        end) = Some true.
Proof.
  split.
  - destruct (extract_from_ents_result U parser_parse list_of_set text ents)
      as (looped & duration & L & _ & E).
    destruct (route_entities_effect U parser_parse ents empty_requirements)
      as (looped' & added & L' & _ & Hu & _).
    rewrite L in L'. injection L' as <-.
    eexists. split; [exact E |]. cbn [urgence].
    rewrite Hu. cbn [urgence empty_requirements orb].
    assert (General :
              existsb (fun word => str_contains (str_lower U text) word)
                urgency_keywords
              || existsb (fun ent => str_eqb (label_ ent) (py "URGENCY")) ents
              = true <->
              (exists ent, In ent ents /\ label_ ent = py "URGENCY")
              \/ (exists word, is_urgency_keyword word
                               /\ occurs_ignoring_case U word text)).
    { rewrite orb_true_iff, !existsb_exists. split.
      - intros [[word [Hin Hc]] | [ent [Hin Hl]]].
        + right. exists word. split; [now apply in_urgency_keywords |].
          now apply str_contains_infix.
        + left. exists ent. split; [assumption | now apply str_eqb_eq].
      - intros [[ent [Hin Hl]] | [word [Hin Hc]]].
        + right. exists ent. split; [assumption | now apply str_eqb_eq].
        + left. exists word.
          split; [now apply keywords_are_small_letters |].
          now apply str_contains_infix. }
    split; [exact General |].
    intros Latin. rewrite General. split.
    + intros [Hent | (word & Hw & Ho)]; [now left |]. right.
      apply (occurs_ignoring_case_latin1 U word text Latin) in Ho;
        [| now apply keywords_are_small_letters].
      destruct Ho as (before & variant & after & Et & Hs).
      exists word, before, variant, after. now repeat split.
    + intros [Hent | (word & before & variant & after & Hw & Et & Hs)];
        [now left |]. right. exists word. split; [exact Hw |].
      apply (occurs_ignoring_case_latin1 U word text Latin);
        [now apply keywords_are_small_letters |].
      now exists before, variant, after.
  - unfold urgent_without_entity.
    repeat split; vm_compute; reflexivity.
Qed.

Lemma latin1_check (s : str) :
  forallb (between 0 255) s = true -> Forall (fun c => 0 <= c < 256) s.
Proof.
  intros H. apply Forall_forall. intros c Hc.
  rewrite forallb_forall in H. apply H, between_spec in Hc. lia.
Qed.

Lemma urgence_iff_entity_or_keyword_witness :
  Forall (fun c => 0 <= c < 256) (py "Besoin URGENT d'un PAB")
  /\ (exists word before variant after,
         is_urgency_keyword word
         /\ py "Besoin URGENT d'un PAB" = before ++ variant ++ after
         /\ same_letters variant word)
  /\ exists requirements,
       extract_from_ents latin1_db numeric_parser distinct
         (py "Besoin URGENT d'un PAB") [] = Ok requirements
       /\ urgence requirements = true.
Proof.
  assert (Latin : Forall (fun c => 0 <= c < 256) (py "Besoin URGENT d'un PAB"))
    by (apply latin1_check; vm_compute; reflexivity).
  assert (Found : exists word before variant after,
             is_urgency_keyword word
             /\ py "Besoin URGENT d'un PAB" = before ++ variant ++ after
             /\ same_letters variant word).
  { exists (py "urgent"), (py "Besoin "), (py "URGENT"), (py " d'un PAB").
    split; [left; reflexivity |]. split; [reflexivity |].
    unfold same_letters.
    repeat (constructor; [right; reflexivity |]). constructor. }
  split; [exact Latin |]. split; [exact Found |].
  destruct (proj1 (urgence_iff_entity_or_keyword latin1_db numeric_parser distinct
                     (py "Besoin URGENT d'un PAB") []))
    as (requirements & E & _ & H).
  exists requirements. split; [exact E |].
  exact (proj2 (H Latin) (or_intror Found)).
Defined.

(** ** The locations *)

(** C7: a [GPE] or [LOC] entity whose lower-cased text is in the
    blacklist does not bring its text into [locations], whatever its
    casing ([Merci], [MERCI] and [merci] are all refused); every other
    [GPE] or [LOC] entity does. *)
Theorem locations_respect_blacklist
    (U : unicode_db) (parser_parse : str -> result datetime)
    (list_of_set : list str -> list str) (text : str) (ents : list entity) :
  (forall xs x, In x (list_of_set xs) <-> In x xs) ->
  exists requirements,
    extract_from_ents U parser_parse list_of_set text ents = Ok requirements
    /\ (forall ent, In ent ents -> place_labelled ent ->
          (In (str_lower U (text_ ent)) location_blacklist ->
             ~ In (text_ ent) (locations requirements))
          /\ (~ In (str_lower U (text_ ent)) location_blacklist ->
                In (text_ ent) (locations requirements)))
    /\ In (str_lower U (py "Merci")) location_blacklist
    /\ In (str_lower U (py "MERCI")) location_blacklist
    /\ In (str_lower U (py "merci")) location_blacklist.
Proof.
  intros Hset.
  destruct (extract_from_ents_result U parser_parse list_of_set text ents)
    as (looped & duration & L & _ & E).
  destruct (route_entities_effect U parser_parse ents empty_requirements)
    as (looped' & added & L' & _ & _ & Hl).
  rewrite L in L'. injection L' as <-.
  eexists. split; [exact E |]. cbn [locations].
  split; [| repeat split; vm_compute; tauto].
  intros ent Hin Hplace.
  assert (Hmem : str_mem (label_ ent) [py "GPE"; py "LOC"] = true).
  { apply str_mem_In. destruct Hplace as [-> | ->]; simpl; tauto. }
  rewrite Hl. cbn [locations empty_requirements app]. split.
  - intros Hblack Hloc. apply (proj1 (Hset _ _)) in Hloc.
    apply in_map_iff in Hloc. destruct Hloc as (ent' & Htext & Hkept).
    apply filter_In in Hkept. destruct Hkept as [_ Hkept].
    apply andb_true_iff in Hkept. destruct Hkept as [_ Hkept].
    apply negb_true_iff, str_mem_not_In in Hkept.
    rewrite Htext in Hkept. contradiction.
  - intros Hfree. apply (proj2 (Hset _ _)). apply in_map. apply filter_In.
    split; [assumption |]. rewrite Hmem. cbn [andb].
    now apply negb_true_iff, str_mem_not_In.
Qed.

Lemma distinct_In (xs : list str) (x : str) : In x (distinct xs) <-> In x xs.
Proof. apply nodup_In. Qed.

Lemma locations_respect_blacklist_witness :
  (forall xs x, In x (distinct xs) <-> In x xs)
  /\ exists requirements,
       extract_from_ents latin1_db numeric_parser distinct
         (py "Merci, quart de soir à Montréal") greeting_entities
       = Ok requirements
       /\ (forall ent, In ent greeting_entities -> place_labelled ent ->
             (In (str_lower latin1_db (text_ ent)) location_blacklist ->
                ~ In (text_ ent) (locations requirements))
             /\ (~ In (str_lower latin1_db (text_ ent)) location_blacklist ->
                   In (text_ ent) (locations requirements)))
       /\ In (str_lower latin1_db (py "Merci")) location_blacklist
       /\ In (str_lower latin1_db (py "MERCI")) location_blacklist
       /\ In (str_lower latin1_db (py "merci")) location_blacklist.
Proof.
  split; [exact distinct_In |].
  exact (locations_respect_blacklist latin1_db numeric_parser distinct
           (py "Merci, quart de soir à Montréal") greeting_entities distinct_In).
Defined.

Example locations_of_greeting :
  option_map locations
    (match extract_from_ents latin1_db numeric_parser distinct
             (py "Merci, quart de soir à Montréal") greeting_entities with
     | Ok requirements => Some requirements
     | Raise _ => None
     end)
  = Some [py "Montréal"].
Proof. vm_compute. reflexivity. Qed.

(** ** The dates *)

(** C3, at the input that breaks it: two entities labelled [DATE] with
    the same text are both appended by [_parse_date], so that [dates]
    holds the same date twice.  The date of one entity that the pattern
    finds again is there once. *)
Theorem date_entities_are_appended_twice
    (U : unicode_db) (parser_parse : str -> result datetime)
    (list_of_set : list str -> list str) :
  parser_parse (py "15/03/2025") = Ok date_2025_03_15 ->
  (exists requirements,
      extract_from_ents U parser_parse list_of_set text_with_repeated_date
        [date_entity; date_entity] = Ok requirements
      /\ dates requirements = [py "15/03/2025"; py "15/03/2025"]
      /\ ~ NoDup (dates requirements))
  /\ (exists requirements,
        extract_from_ents U parser_parse list_of_set text_with_repeated_date
          [date_entity] = Ok requirements
        /\ dates requirements = [py "15/03/2025"]).
Proof.
  intros P. vm_compute in P. split.
  - destruct (extract_from_ents_result U parser_parse list_of_set
                text_with_repeated_date [date_entity; date_entity])
      as (looped & duration & L & _ & E).
    eexists. split; [exact E |]. cbn [dates].
    assert (D : dates looped = [py "15/03/2025"; py "15/03/2025"]).
    { vm_compute in L. rewrite P in L. vm_compute in L.
      injection L as <-. reflexivity. }
    rewrite D.
    assert (F : add_date_matches (re_findall (re_date U) text_with_repeated_date)
                  [py "15/03/2025"; py "15/03/2025"]
                = [py "15/03/2025"; py "15/03/2025"])
      by (vm_compute; reflexivity).
    rewrite F. split; [reflexivity |].
    intros N. inversion N as [| x xs Hnotin _]. apply Hnotin. now left.
  - destruct (extract_from_ents_result U parser_parse list_of_set
                text_with_repeated_date [date_entity])
      as (looped & duration & L & _ & E).
    eexists. split; [exact E |]. cbn [dates].
    assert (D : dates looped = [py "15/03/2025"]).
    { vm_compute in L. rewrite P in L. vm_compute in L.
      injection L as <-. reflexivity. }
    rewrite D. vm_compute. reflexivity.
Qed.

Lemma date_entities_are_appended_twice_witness :
  numeric_parser (py "15/03/2025") = Ok date_2025_03_15
  /\ exists requirements,
       extract_from_ents latin1_db numeric_parser distinct text_with_repeated_date
         [date_entity; date_entity] = Ok requirements
       /\ dates requirements = [py "15/03/2025"; py "15/03/2025"]
       /\ ~ NoDup (dates requirements).
Proof.
  split; [reflexivity |].
  exact (proj1 (date_entities_are_appended_twice latin1_db numeric_parser
                  distinct eq_refl)).
Defined.

(** ** The time range *)

(** A match of the time range starts with a digit. *)
Lemma time_range_starts_with_digit
    (U : unicode_db) (prev : option codepoint) (c : codepoint) (s : str) :
  is_decimal U c = false -> match_at (re_time_range U) prev (c :: s) = None.
Proof.
  intros H. unfold match_at, re_time_range, re_clock. cbn. now rewrite H.
Qed.

(** The search passes over a prefix without digit. *)
Lemma search_time_range_skips
    (U : unicode_db) (before s : str) (prev : option codepoint) :
  Forall (fun c => is_decimal U c = false) before ->
  exists prev',
    search_from (re_time_range U) prev (before ++ s)
    = search_from (re_time_range U) prev' s.
Proof.
  intros H. revert prev. induction H as [|c before Hc _ IH]; intros prev.
  - now exists prev.
  - destruct (IH (Some c)) as [prev' E]. exists prev'.
    cbn [app search_from]. now rewrite time_range_starts_with_digit.
Qed.

Lemma search_from_here
    (r : regex) (prev : option codepoint) (s : str) (m : match_obj) :
  match_at r prev s = Some m -> search_from r prev s = Some m.
Proof. intros H. destruct s; cbn [search_from]; now rewrite H. Qed.

(** The first match of the time range in a text where no digit comes
    before [22h00-6h00], and the same for [8h00 à 16h00]. *)
Lemma search_22h00_6h00 (U : unicode_db) (before after : str) :
  Forall (fun c => is_decimal U c = false) before ->
  re_search (re_time_range U) (before ++ py "22h00-6h00" ++ after)
  = Some {| m_subject := py "22h00-6h00" ++ after; m_end := 10;
            m_caps := [(2%nat, (6%nat, 10%nat)); (1%nat, (0%nat, 5%nat))] |}.
Proof.
  intros H. unfold re_search.
  destruct (@search_time_range_skips U before (py "22h00-6h00" ++ after) None H) as [prev ->].
  apply search_from_here. reflexivity.
Qed.

Lemma search_8h00_16h00 (U : unicode_db) (before after : str) :
  Forall (fun c => is_decimal U c = false) before ->
  re_search (re_time_range U) (before ++ py "8h00 à 16h00" ++ after)
  = Some {| m_subject := py "8h00 à 16h00" ++ after; m_end := 12;
            m_caps := [(2%nat, (7%nat, 12%nat)); (1%nat, (0%nat, 4%nat))] |}.
Proof.
  intros H. unfold re_search.
  destruct (@search_time_range_skips U before (py "8h00 à 16h00" ++ after) None H) as [prev ->].
  apply search_from_here. reflexivity.
Qed.

(** In [19h à 7h] the first time is [19h], whatever follows. *)
Lemma search_19h_7h (U : unicode_db) (before after : str) :
  Forall (fun c => is_decimal U c = false) before ->
  exists m,
    re_search (re_time_range U) (before ++ py "19h à 7h" ++ after) = Some m
    /\ group m 1 = py "19h".
Proof.
  intros H. unfold re_search.
  destruct (@search_time_range_skips U before (py "19h à 7h" ++ after) None H) as [prev ->].
  enough (exists m, match_at (re_time_range U) prev (py "19h à 7h" ++ after) = Some m
                    /\ group m 1 = py "19h") as (m & E & G).
  { exists m. split; [now apply search_from_here | exact G]. }
  change (py "19h à 7h") with [49; 57; 104; 32; 224; 32; 55; 104].
  unfold match_at, re_time_range, re_clock, lit, lit_i. cbn.
  destruct after as [|c after]; [eexists; split; reflexivity |].
  destruct (is_decimal U c); [| eexists; split; reflexivity].
  destruct after as [|c' after]; [eexists; split; reflexivity |].
  destruct (is_decimal U c'); eexists; split; reflexivity.
Qed.

(** [strptime] with [%H:%M] yields a time of day on 1 January 1900. *)
Lemma strptime_HM_date (U : unicode_db) (data : str) (d : datetime) :
  strptime_HM U data = Ok d ->
  year d = 1900 /\ month d = 1 /\ day d = 1 /\ second d = 0
  /\ 0 <= hour d <= 23 /\ 0 <= minute d <= 59.
Proof.
  unfold strptime_HM.
  destruct (re_match (re_HM U) data) as [found |]; [| discriminate].
  destruct (negb (Nat.eqb (List.length data) (m_end found))); [discriminate |].
  destruct (py_int U (group found 1)) as [H |]; [| discriminate].
  destruct (py_int U (group found 2)) as [M |]; [| discriminate].
  cbn [bind]. unfold datetime_new.
  destruct (valid_datetime _) eqn:V; [| discriminate].
  intros E. injection E as <-. apply valid_datetime_spec in V.
  cbn [year month day hour minute second] in *. lia.
Qed.

Lemma datetime_ltb_same_day (a b : datetime) :
  year a = year b -> month a = month b -> day a = day b ->
  0 <= minute a <= 59 -> 0 <= minute b <= 59 ->
  0 <= second a <= 59 -> 0 <= second b <= 59 ->
  datetime_ltb a b = true <-> seconds_of_day a < seconds_of_day b.
Proof.
  intros Ey Em Ed Ha Hb Sa Sb. unfold datetime_ltb, seconds_of_day.
  rewrite Ey, Em, Ed, !Z.ltb_irrefl, !Z.eqb_refl. cbn [orb andb].
  rewrite andb_false_r, orb_false_r.
  rewrite !orb_true_iff, !andb_true_iff, !orb_true_iff, !Z.ltb_lt, !Z.eqb_eq.
  lia.
Qed.

(** The duration of a shift that ends, on the clock, before it starts. *)
Lemma overnight_duration (start end_ : datetime) :
  year start = 1900 /\ month start = 1 /\ day start = 1 /\ second start = 0
  /\ 0 <= hour start <= 23 /\ 0 <= minute start <= 59 ->
  year end_ = 1900 /\ month end_ = 1 /\ day end_ = 1 /\ second end_ = 0
  /\ 0 <= hour end_ <= 23 /\ 0 <= minute end_ <= 59 ->
  seconds_of_day end_ < seconds_of_day start ->
  datetime_ltb end_ start = true
  /\ exists next,
       add_one_day end_ = Ok next
       /\ td_seconds (datetime_sub next start)
          = seconds_of_day end_ + 86400 - seconds_of_day start.
Proof.
  intros (Sy & Sm & Sd & Ss & Sh & Smin) (Ey & Em & Ed & Es & Eh & Emin) Lt.
  split.
  - apply datetime_ltb_same_day; lia.
  - destruct start as [sy smo sd sh smi ss], end_ as [ey emo ed eh emi es].
    cbn [year month day hour minute second] in *. subst.
    eexists. split; [reflexivity |].
    unfold datetime_sub, toordinal, seconds_of_day in *.
    cbn [year month day hour minute second td_seconds] in *.
    replace (days_before_year 1900 + days_before_month 1900 1 + (1 + 1)
             - (days_before_year 1900 + days_before_month 1900 1 + 1)) with 1
      by (vm_compute; reflexivity).
    rewrite Z.mod_small; lia.
Qed.

(** C4, as the code has it: when the first time range of the text ends,
    on the clock, before it starts, the end is moved to the next day
    before the subtraction, and the result is the whole number of hours
    followed by [h].  A text whose first time range is [22h00-6h00], or
    [8h00 à 16h00], yields [8h], whatever stands before and after it:
    so do these two texts alone, and a text where a date comes first. *)
Theorem shift_duration_over_midnight (U : unicode_db) :
  (forall text time_match start end_,
      re_search (re_time_range U) text = Some time_match ->
      strptime_HM U (replace_char 104 58 (group time_match 1)) = Ok start ->
      strptime_HM U (replace_char 104 58 (group time_match 2)) = Ok end_ ->
      seconds_of_day end_ < seconds_of_day start ->
      _calculate_shift_duration U text
      = Ok (str_of_int
              ((seconds_of_day end_ + 86400 - seconds_of_day start) / 3600)
            ++ py "h"))
  /\ (forall text time_match,
        re_search (re_time_range U) text = Some time_match ->
        group time_match 1 = py "22h00" ->
        group time_match 2 = py "6h00" ->
        _calculate_shift_duration U text = Ok (py "8h"))
  /\ (forall text time_match,
        re_search (re_time_range U) text = Some time_match ->
        group time_match 1 = py "8h00" ->
        group time_match 2 = py "16h00" ->
        _calculate_shift_duration U text = Ok (py "8h"))
  /\ _calculate_shift_duration U (py "22h00-6h00") = Ok (py "8h")
  /\ _calculate_shift_duration U (py "8h00 à 16h00") = Ok (py "8h")
  /\ _calculate_shift_duration U (py "Le 15/03/2025 de 22h00-6h00") = Ok (py "8h").
Proof.
  split; [| split; [| split; [| split; [| split]]]].
  - intros text m start end_ S P1 P2 Lt.
    unfold _calculate_shift_duration. rewrite S, P1, P2. cbn [bind].
    destruct (overnight_duration start end_ (strptime_HM_date _ _ _ P1)
                (strptime_HM_date _ _ _ P2) Lt) as (Hlt & next & Hnext & Hsec).
    rewrite Hlt, Hnext. cbn [bind try_except]. now rewrite Hsec.
  - intros text m S G1 G2. unfold _calculate_shift_duration.
    rewrite S, G1, G2. reflexivity.
  - intros text m S G1 G2. unfold _calculate_shift_duration.
    rewrite S, G1, G2. reflexivity.
  - vm_compute. reflexivity.
  - vm_compute. reflexivity.
  - vm_compute. reflexivity.
Qed.

Lemma shift_duration_over_midnight_witness :
  (re_search (re_time_range latin1_db) (py "Quart : 23h30 - 7h15")
     = Some {| m_subject := py "23h30 - 7h15"; m_end := 12;
               m_caps := [(2%nat, (8%nat, 12%nat)); (1%nat, (0%nat, 5%nat))] |}
   /\ strptime_HM latin1_db (py "23:30")
      = Ok {| year := 1900; month := 1; day := 1;
              hour := 23; minute := 30; second := 0 |}
   /\ strptime_HM latin1_db (py "7:15")
      = Ok {| year := 1900; month := 1; day := 1;
              hour := 7; minute := 15; second := 0 |}
   /\ 7 * 3600 + 15 * 60 + 0 < 23 * 3600 + 30 * 60 + 0
   /\ _calculate_shift_duration latin1_db (py "Quart : 23h30 - 7h15")
      = Ok (py "7h"))
  /\ (re_search (re_time_range latin1_db)
        (py "Le 15/03/2025, quart de 22h00-6h00 (8 heures)")
      = Some {| m_subject := py "22h00-6h00 (8 heures)"; m_end := 10;
                m_caps := [(2%nat, (6%nat, 10%nat)); (1%nat, (0%nat, 5%nat))] |}
      /\ _calculate_shift_duration latin1_db
           (py "Le 15/03/2025, quart de 22h00-6h00 (8 heures)")
         = Ok (py "8h"))
  /\ (re_search (re_time_range latin1_db)
        (py "Salle 2, jour : 8h00 à 16h00, merci")
      = Some {| m_subject := py "8h00 à 16h00, merci"; m_end := 12;
                m_caps := [(2%nat, (7%nat, 12%nat)); (1%nat, (0%nat, 4%nat))] |}
      /\ _calculate_shift_duration latin1_db
           (py "Salle 2, jour : 8h00 à 16h00, merci")
         = Ok (py "8h")).
Proof.
  destruct (shift_duration_over_midnight latin1_db) as (G & N & D & _).
  assert (L : 7 * 3600 + 15 * 60 + 0 < 23 * 3600 + 30 * 60 + 0) by lia.
  split; [| split].
  - split; [reflexivity |]. split; [reflexivity |]. split; [reflexivity |].
    split; [exact L |].
    exact (G (py "Quart : 23h30 - 7h15") _ _ _ eq_refl eq_refl eq_refl L).
  - split; [reflexivity |].
    exact (N (py "Le 15/03/2025, quart de 22h00-6h00 (8 heures)") _
             eq_refl eq_refl eq_refl).
  - split; [reflexivity |].
    exact (D (py "Salle 2, jour : 8h00 à 16h00, merci") _
             eq_refl eq_refl eq_refl).
Defined.

(** C4, as the claim words it, fails: the duration is that of the first
    time range of the text. A text that holds [22h00-6h00] after another
    range gets the duration of the other range, [4h], and not [8h]. *)
Lemma later_time_range_is_ignored :
  (exists before after,
      py "Quart 1 : 8h00-12h00, quart 2 : 22h00-6h00"
      = before ++ py "22h00-6h00" ++ after)
  /\ (forall U,
        _calculate_shift_duration U
          (py "Quart 1 : 8h00-12h00, quart 2 : 22h00-6h00") = Ok (py "4h"))
  /\ (forall U,
        _calculate_shift_duration U
          (py "Quart 1 : 8h00-12h00, quart 2 : 22h00-6h00") <> Ok (py "8h")).
Proof.
  split; [| split].
  - exists (py "Quart 1 : 8h00-12h00, quart 2 : "). exists []. reflexivity.
  - intros U. vm_compute. reflexivity.
  - intros U. vm_compute. discriminate.
Qed.

(** C1, at the inputs that break it: a time without minutes, such as
    [19h], becomes [19:], which [strptime] refuses for the format
    [%H:%M]. A text where [19h à 7h] is preceded by no digit, and the
    message of the end-to-end scenario, get the empty duration and not
    [12h]. *)
Theorem hours_without_minutes_are_refused (U : unicode_db) :
  strptime_HM U (replace_char 104 58 (py "19h")) = Raise ValueError
  /\ (forall before after,
        Forall (fun c => is_decimal U c = false) before ->
        _calculate_shift_duration U (before ++ py "19h à 7h" ++ after) = Ok [])
  /\ _calculate_shift_duration U night_shift_request = Ok []
  /\ _calculate_shift_duration U night_shift_request <> Ok (py "12h").
Proof.
  split; [reflexivity |]. split; [| split].
  - intros before after H.
    destruct (search_19h_7h U before after H) as (m & S & G).
    unfold _calculate_shift_duration. rewrite S, G. reflexivity.
  - vm_compute. reflexivity.
  - vm_compute. discriminate.
Qed.

Lemma hours_without_minutes_are_refused_witness :
  Forall (fun c => is_decimal latin1_db c = false) (py "Quart de nuit, de ")
  /\ _calculate_shift_duration latin1_db
       (py "Quart de nuit, de " ++ py "19h à 7h" ++ py " demain") = Ok [].
Proof.
  assert (F : Forall (fun c => is_decimal latin1_db c = false)
                (py "Quart de nuit, de ")) by (repeat constructor).
  split; [exact F |].
  exact (proj1 (proj2 (hours_without_minutes_are_refused latin1_db))
           _ (py " demain") F).
Defined.

(** ** The date pattern *)

Lemma decimal_is_word (U : unicode_db) (c : codepoint) :
  is_decimal U c = true -> is_word U c = true.
Proof.
  unfold is_decimal, is_word, is_alnum, decimal_value.
  destruct (c <? 256).
  - destruct (between 48 57 c); [reflexivity | discriminate].
  - intros ->. now rewrite orb_true_r.
Qed.

Lemma date_shape_spec (U : unicode_db) (token : str) :
  date_shape U token = true ->
  exists d0 d1 d3 d4 d6 d7 d8 d9,
    token = [d0; d1; 47; d3; d4; 47; d6; d7; d8; d9]
    /\ is_decimal U d0 = true /\ is_decimal U d1 = true
    /\ is_decimal U d3 = true /\ is_decimal U d4 = true
    /\ is_decimal U d6 = true /\ is_decimal U d7 = true
    /\ is_decimal U d8 = true /\ is_decimal U d9 = true.
Proof.
  unfold date_shape.
  do 10 (destruct token as [|? token]; [discriminate |]).
  destruct token; [| discriminate].
  cbn [forallb]. rewrite !andb_true_iff, !Z.eqb_eq.
  intros ((-> & ->) & E0 & E1 & E3 & E4 & E6 & E7 & E8 & E9 & _).
  do 8 eexists. split; [reflexivity |]. repeat split; assumption.
Qed.

(** What a match of the date pattern looks like. *)
Lemma date_match_sound
    (U : unicode_db) (prev : option codepoint) (s : str) (m : match_obj) :
  match_at (re_date U) prev s = Some m ->
  exists d0 d1 d3 d4 d6 d7 d8 d9 rest,
    s = [d0; d1; 47; d3; d4; 47; d6; d7; d8; d9] ++ rest
    /\ is_decimal U d0 = true /\ is_decimal U d1 = true
    /\ is_decimal U d3 = true /\ is_decimal U d4 = true
    /\ is_decimal U d6 = true /\ is_decimal U d7 = true
    /\ is_decimal U d8 = true /\ is_decimal U d9 = true
    /\ m_end m = 10%nat.
Proof.
  unfold match_at, re_date, lit. cbn.
  destruct (xorb (opt_class (is_word U) prev) (opt_class (is_word U) (hd_error s)));
    [| discriminate].
  destruct s as [|d0 s]; [discriminate |].
  destruct (is_decimal U d0) eqn:E0; [| discriminate].
  destruct s as [|d1 s]; [discriminate |].
  destruct (is_decimal U d1) eqn:E1; [| discriminate].
  destruct s as [|c2 s]; [discriminate |].
  destruct (Z.eqb_spec c2 47) as [-> |]; [| discriminate].
  destruct s as [|d3 s]; [discriminate |].
  destruct (is_decimal U d3) eqn:E3; [| discriminate].
  destruct s as [|d4 s]; [discriminate |].
  destruct (is_decimal U d4) eqn:E4; [| discriminate].
  destruct s as [|c5 s]; [discriminate |].
  destruct (Z.eqb_spec c5 47) as [-> |]; [| discriminate].
  destruct s as [|d6 s]; [discriminate |].
  destruct (is_decimal U d6) eqn:E6; [| discriminate].
  destruct s as [|d7 s]; [discriminate |].
  destruct (is_decimal U d7) eqn:E7; [| discriminate].
  destruct s as [|d8 s]; [discriminate |].
  destruct (is_decimal U d8) eqn:E8; [| discriminate].
  destruct s as [|d9 s]; [discriminate |].
  destruct (is_decimal U d9) eqn:E9; [| discriminate].
  destruct (xorb (is_word U d9) (opt_class (is_word U) (hd_error s)));
    [| discriminate].
  intros E. injection E as <-.
  exists d0, d1, d3, d4, d6, d7, d8, d9, s. repeat split; assumption.
Qed.

(** A date token is matched where it stands. *)
Lemma date_match_complete
    (U : unicode_db) (prev : option codepoint) (token after : str) :
  date_shape U token = true ->
  opt_class (is_word U) prev = false ->
  opt_class (is_word U) (hd_error after) = false ->
  exists m,
    match_at (re_date U) prev (token ++ after) = Some m /\ group m 1 = token.
Proof.
  intros Shape Hprev Hafter.
  destruct (date_shape_spec U token Shape)
    as (d0 & d1 & d3 & d4 & d6 & d7 & d8 & d9 & -> & E0 & E1 & E3 & E4 & E6 & E7 & E8 & E9).
  unfold match_at, re_date, lit. cbn.
  rewrite Hprev, Hafter, E0, E1, E3, E4, E6, E7, E8, E9.
  rewrite (decimal_is_word U d0 E0), (decimal_is_word U d9 E9). cbn.
  eexists. split; reflexivity.
Qed.

Ltac digits_are_word U :=
  repeat match goal with
    | H : is_decimal U ?x = true |- _ =>
        lazymatch goal with
        | _ : is_word U x = true |- _ => fail
        | _ => pose proof (decimal_is_word U x H)
        end
    end.

(** A match of the date pattern that starts before a date token ends
    before it: the two share no character. *)
Lemma date_match_before_token
    (U : unicode_db) (prev : option codepoint) (c : codepoint)
    (before token after : str) (m : match_obj) :
  date_shape U token = true ->
  opt_class (is_word U) (last_char (Some c) before) = false ->
  match_at (re_date U) prev (c :: before ++ token ++ after) = Some m ->
  (Nat.pred (m_end m) <= List.length before)%nat.
Proof.
  intros Shape Hlast M.
  destruct (date_match_sound U prev _ m M)
    as (d0 & d1 & d3 & d4 & d6 & d7 & d8 & d9 & rest & Es
        & E0 & E1 & E3 & E4 & E6 & E7 & E8 & E9 & ->).
  destruct (date_shape_spec U token Shape)
    as (t0 & t1 & t3 & t4 & t6 & t7 & t8 & t9 & ->
        & T0 & T1 & T3 & T4 & T6 & T7 & T8 & T9).
  assert (N47 : is_decimal U 47 = false) by reflexivity.
  unfold last_char in Hlast.
  do 9 (destruct before as [|? before];
        [ exfalso; cbn [app fold_left opt_class] in Es, Hlast;
          injection Es; intros; subst; clear Es M Shape;
          digits_are_word U;
          match goal with
          | H : is_decimal U 47 = true |- _ => rewrite N47 in H; discriminate H
          | H1 : is_word U ?x = false, H2 : is_word U ?x = true |- _ =>
              rewrite H1 in H2; discriminate H2
          end |]).
  cbn [List.length Nat.pred]. lia.
Qed.

Lemma findall_from_skip
    (r : regex) (prev : option codepoint) (n : nat) (c : codepoint) (s : str) :
  findall_from r prev (S n) (c :: s) = findall_from r (Some c) n s.
Proof. reflexivity. Qed.

Lemma findall_from_try
    (r : regex) (prev : option codepoint) (c : codepoint) (s : str) :
  findall_from r prev 0 (c :: s)
  = match match_at r prev (c :: s) with
    | Some m => group m 1 :: findall_from r (Some c) (Nat.pred (m_end m)) s
    | None => findall_from r (Some c) 0 s
    end.
Proof. reflexivity. Qed.

(** The scan of [re.findall] reaches every date token. *)
Lemma findall_reaches_token (U : unicode_db) (token after : str) :
  date_shape U token = true ->
  opt_class (is_word U) (hd_error after) = false ->
  forall before prev skip,
    (skip <= List.length before)%nat ->
    opt_class (is_word U) (last_char prev before) = false ->
    In token (findall_from (re_date U) prev skip (before ++ token ++ after)).
Proof.
  intros Shape Hafter. induction before as [|c before IH]; intros prev skip Hskip Hprev.
  - assert (skip = 0%nat) as -> by (cbn in Hskip; lia).
    destruct (date_match_complete U prev token after Shape Hprev Hafter)
      as (m & M & G).
    cbn [app]. destruct (token ++ after) as [|x s] eqn:E.
    + destruct (date_shape_spec U token Shape) as (? & ? & ? & ? & ? & ? & ? & ? & -> & _).
      discriminate.
    + rewrite findall_from_try, M, G. now left.
  - cbn [app]. destruct skip as [|n].
    + rewrite findall_from_try.
      destruct (match_at (re_date U) prev (c :: before ++ token ++ after))
        as [m |] eqn:M.
      * right. apply IH; [| exact Hprev].
        exact (date_match_before_token U prev c before token after m Shape Hprev M).
      * apply IH; [lia | exact Hprev].
    + rewrite findall_from_skip. apply IH; [cbn in Hskip; lia | exact Hprev].
Qed.

Lemma add_date_matches_keeps (date_matches ds : list str) (x : str) :
  In x ds -> In x (add_date_matches date_matches ds).
Proof.
  revert ds. induction date_matches as [|date rest IH]; intros ds H; [exact H |].
  cbn [add_date_matches]. apply IH.
  destruct (str_mem date ds); cbn [negb]; [exact H | apply in_or_app; now left].
Qed.

Lemma add_date_matches_adds (date_matches ds : list str) (x : str) :
  In x date_matches -> In x (add_date_matches date_matches ds).
Proof.
  revert ds. induction date_matches as [|date rest IH]; intros ds H; [destruct H |].
  cbn [add_date_matches]. destruct H as [-> | H]; [| now apply IH].
  apply add_date_matches_keeps.
  destruct (str_mem x ds) eqn:E; cbn [negb].
  - now apply str_mem_In.
  - apply in_or_app. right. now left.
Qed.

(** C10: a date found by the pattern is not validated. Every token of
    the shape two digits, slash, two digits, slash, four digits that
    stands in the text as a word of its own is in [dates] as it is
    written; [15/03/2019], whose year [_parse_date] would refuse, and
    [99/99/9999], which is no date at all, are such tokens. *)
Theorem pattern_dates_are_not_validated
    (U : unicode_db) (parser_parse : str -> result datetime)
    (list_of_set : list str -> list str) :
  (forall text ents before token after,
      text = before ++ token ++ after ->
      date_token U before token after ->
      exists requirements,
        extract_from_ents U parser_parse list_of_set text ents = Ok requirements
        /\ In token (dates requirements))
  /\ (exists requirements,
        extract_from_ents U parser_parse list_of_set (py "15/03/2019") []
        = Ok requirements
        /\ dates requirements = [py "15/03/2019"])
  /\ (exists requirements,
        extract_from_ents U parser_parse list_of_set (py "99/99/9999") []
        = Ok requirements
        /\ dates requirements = [py "99/99/9999"]).
Proof.
  split; [| split].
  - intros text ents before token after -> (Shape & Hbefore & Hafter).
    destruct (extract_from_ents_result U parser_parse list_of_set
                (before ++ token ++ after) ents)
      as (looped & duration & _ & _ & E).
    eexists. split; [exact E |]. cbn [dates].
    apply add_date_matches_adds. unfold re_findall.
    apply findall_reaches_token; [assumption | assumption | apply Nat.le_0_l | assumption].
  - destruct (extract_from_ents_result U parser_parse list_of_set
                (py "15/03/2019") [])
      as (looped & duration & L & _ & E).
    cbn in L. injection L as <-.
    eexists. split; [exact E |]. vm_compute. reflexivity.
  - destruct (extract_from_ents_result U parser_parse list_of_set
                (py "99/99/9999") [])
      as (looped & duration & L & _ & E).
    cbn in L. injection L as <-.
    eexists. split; [exact E |]. vm_compute. reflexivity.
Qed.

Lemma pattern_dates_are_not_validated_witness :
  py "Quart du 31/02/2019, merci"
  = py "Quart du " ++ py "31/02/2019" ++ py ", merci"
  /\ date_token latin1_db (py "Quart du ") (py "31/02/2019") (py ", merci")
  /\ exists requirements,
       extract_from_ents latin1_db numeric_parser distinct
         (py "Quart du 31/02/2019, merci")
         [ {| label_ := py "DATE"; text_ := py "31/02/2019" |} ]
       = Ok requirements
       /\ In (py "31/02/2019") (dates requirements).
Proof.
  assert (E : py "Quart du 31/02/2019, merci"
              = py "Quart du " ++ py "31/02/2019" ++ py ", merci") by reflexivity.
  assert (T : date_token latin1_db (py "Quart du ") (py "31/02/2019") (py ", merci"))
    by (repeat split).
  split; [exact E |]. split; [exact T |].
  exact (proj1 (pattern_dates_are_not_validated latin1_db numeric_parser distinct)
           _ _ _ _ _ E T).
Defined.

Example span_path_refuses_what_the_pattern_accepts :
  _parse_date numeric_parser (py "15/03/2019") empty_requirements
  = Ok empty_requirements
  /\ numeric_parser (py "99/99/9999") = Raise ValueError.
Proof. split; reflexivity. Qed.

(** ** The mailbox *)

Section MailboxProperties.
Variable U : unicode_db.
Variable parser_parse : str -> result datetime.
Variable list_of_set : list str -> list str.
Variable nlp : str -> result (list entity).
Variables W raw : Type.
Variable api : mail_api W raw.

Let loop := process_loop U parser_parse list_of_set nlp api.
Let run := process_emails U parser_parse list_of_set nlp api.

(** [mark_as_processed] returns normally, whatever the server answers. *)
Lemma mark_as_processed_returns (email_id : Z) (w : W) :
  exists w', mark_as_processed api email_id w = (Ok tt, w').
Proof.
  unfold mark_as_processed, io_try, io_bind, io_ret.
  destruct (imap_list_folders api w) as [[folders | e] w1]; [| now exists w1].
  destruct (negb (str_mem (py "Processed") folders)).
  - destruct (imap_create_folder api (py "Processed") w1) as [[[] | e] w2];
      [| now exists w2].
    destruct (imap_move api email_id (py "Processed") w2) as [[[] | e] w3];
      now exists w3.
  - destruct (imap_move api email_id (py "Processed") w1) as [[[] | e] w3];
      now exists w3.
Qed.

(** A message that cannot be fetched ends the loop with its exception. *)
Lemma process_loop_fetch_raises
    (email_id : Z) (emails : list Z) (results : list processed)
    (w w' : W) (e : exn) :
  imap_fetch api email_id w = (Raise e, w') ->
  loop (email_id :: emails) results w = (Raise e, w').
Proof.
  intros F. unfold loop. cbn [process_loop]. unfold io_bind. now rewrite F.
Qed.

(** The loop over [before ++ after] is the loop over [before] followed
    by the loop over [after]. *)
Lemma process_loop_app (before after : list Z) (results : list processed) (w : W) :
  loop (before ++ after) results w
  = io_bind (loop before results) (fun results' => loop after results') w.
Proof.
  unfold loop. revert results w.
  induction before as [|email_id before IH]; intros results w.
  - reflexivity.
  - cbn [app process_loop]. unfold io_bind, io_lift.
    destruct (imap_fetch api email_id w) as [[raw_email | e] w1]; [| reflexivity].
    destruct (parse_email api raw_email) as [parsed | e]; [| reflexivity].
    destruct (extract_requirements U parser_parse list_of_set nlp _)
      as [requirements | e]; [| reflexivity].
    destruct (mark_as_processed api email_id w1) as [[[] | e] w2]; [| reflexivity].
    rewrite IH. reflexivity.
Qed.

(** When every message can be fetched, decoded and analysed, the loop
    yields one result for each message, in the order of the messages. *)
Lemma process_loop_completes (emails : list Z) :
  (forall email_id w, exists raw_email w',
      imap_fetch api email_id w = (Ok raw_email, w')) ->
  (forall raw_email, exists parsed, parse_email api raw_email = Ok parsed) ->
  (forall text, exists ents, nlp text = Ok ents) ->
  forall results w,
  exists results' w',
    loop emails results w = (Ok (results ++ results'), w')
    /\ map res_id results' = emails.
Proof.
  intros Hfetch Hparse Hnlp. unfold loop.
  induction emails as [|email_id emails IH]; intros results w.
  - exists []. exists w. rewrite app_nil_r. split; reflexivity.
  - cbn [process_loop].
    destruct (Hfetch email_id w) as (raw_email & w1 & F).
    destruct (Hparse raw_email) as (parsed & P).
    destruct (Hnlp (subject parsed ++ [10] ++ body parsed)) as (ents & N).
    destruct (extract_from_ents_result U parser_parse list_of_set
                (subject parsed ++ [10] ++ body parsed) ents)
      as (looped & duration & _ & _ & E).
    destruct (mark_as_processed_returns email_id w1) as (w2 & M).
    unfold io_bind, io_lift. rewrite F, P.
    unfold extract_requirements. rewrite N. cbn [bind]. rewrite E, M.
    match goal with
    | |- context [process_loop _ _ _ _ _ emails (results ++ [?r]) w2] =>
        destruct (IH (results ++ [r]) w2) as (results' & w' & L & Ids);
        exists (r :: results'); exists w'
    end.
    rewrite L, <- app_assoc. split; [reflexivity |].
    cbn [map res_id]. now rewrite Ids.
Qed.

(** C9, as the code has it: a failure of [mark_as_processed] stays with
    its message, since the method returns normally whatever the server
    answers, so that, when every message can be fetched, decoded and
    analysed, the run returns one result for each message; a message that
    cannot be fetched ends the run, which returns the empty list. *)
Theorem mark_failure_is_isolated_fetch_failure_ends_run :
  (forall email_id w, exists w', mark_as_processed api email_id w = (Ok tt, w'))
  /\ (forall w emails w1,
        imap_search_unseen api (snd (connect api w)) = (Ok emails, w1) ->
        (forall email_id w, exists raw_email w',
            imap_fetch api email_id w = (Ok raw_email, w')) ->
        (forall raw_email, exists parsed, parse_email api raw_email = Ok parsed) ->
        (forall text, exists ents, nlp text = Ok ents) ->
        exists results w2,
          run w = (results, w2) /\ map res_id results = emails)
  /\ (forall w before email_id after w1 done w2 e w3,
        imap_search_unseen api (snd (connect api w))
        = (Ok (before ++ email_id :: after), w1) ->
        loop before [] w1 = (Ok done, w2) ->
        imap_fetch api email_id w2 = (Raise e, w3) ->
        run w = ([], w3)).
Proof.
  split; [exact mark_as_processed_returns |]. split.
  - intros w emails w1 S Hfetch Hparse Hnlp.
    destruct (process_loop_completes emails Hfetch Hparse Hnlp [] w1)
      as (results & w2 & L & Ids).
    exists results. exists w2. split; [| exact Ids].
    unfold run, process_emails. destruct (connect api w) as [r w0].
    cbn [snd] in S. unfold io_bind. rewrite S.
    fold loop. rewrite L. reflexivity.
  - intros w before email_id after w1 done w2 e w3 S L F.
    unfold run, process_emails. destruct (connect api w) as [r w0].
    cbn [snd] in S. unfold io_bind at 1. rewrite S.
    fold loop. rewrite process_loop_app. unfold io_bind. rewrite L.
    now rewrite (process_loop_fetch_raises email_id after done w2 w3 e F).
Qed.
End MailboxProperties.

Lemma mark_failure_is_isolated_fetch_failure_ends_run_witness :
  (imap_search_unseen read_only_mailbox (snd (connect read_only_mailbox []))
   = (Ok [1; 2; 3], [])
   /\ (forall email_id w, exists raw_email w',
          imap_fetch read_only_mailbox email_id w = (Ok raw_email, w'))
   /\ (forall raw_email, exists parsed,
          parse_email read_only_mailbox raw_email = Ok parsed)
   /\ (forall text, exists ents, no_entities text = Ok ents)
   /\ exists results w2,
        process_emails latin1_db numeric_parser distinct no_entities
          read_only_mailbox [] = (results, w2)
        /\ map res_id results = [1; 2; 3])
  /\ (imap_search_unseen faulty_mailbox (snd (connect faulty_mailbox []))
      = (Ok ([1] ++ 2 :: [3]), [])
      /\ exists done,
           process_loop latin1_db numeric_parser distinct no_entities
             faulty_mailbox [1] [] [] = (Ok done, [Fetched 1; Moved 1])
           /\ imap_fetch faulty_mailbox 2 [Fetched 1; Moved 1]
              = (Raise IMAPClientError, [Fetched 1; Moved 1])
           /\ process_emails latin1_db numeric_parser distinct no_entities
                faulty_mailbox [] = ([], [Fetched 1; Moved 1])).
Proof.
  assert (Hfetch : forall email_id w, exists raw_email w',
             imap_fetch read_only_mailbox email_id w = (Ok raw_email, w'))
    by (intros email_id w; eexists; eexists; reflexivity).
  assert (Hparse : forall raw_email, exists parsed,
             parse_email read_only_mailbox raw_email = Ok parsed)
    by (intros raw_email; eexists; reflexivity).
  assert (Hnlp : forall text, exists ents, no_entities text = Ok ents)
    by (intros text; eexists; reflexivity).
  split.
  - split; [reflexivity |]. split; [exact Hfetch |]. split; [exact Hparse |].
    split; [exact Hnlp |].
    exact (proj1 (proj2 (mark_failure_is_isolated_fetch_failure_ends_run
                           latin1_db numeric_parser distinct no_entities
                           (list mail_event) parsed_email read_only_mailbox))
             [] [1; 2; 3] [] eq_refl Hfetch Hparse Hnlp).
  - split; [reflexivity |]. eexists.
    assert (L : process_loop latin1_db numeric_parser distinct no_entities
                  faulty_mailbox [1] [] []
                = (Ok _, [Fetched 1; Moved 1])) by (vm_compute; reflexivity).
    split; [exact L |]. split; [reflexivity |].
    exact (proj2 (proj2 (mark_failure_is_isolated_fetch_failure_ends_run
                           latin1_db numeric_parser distinct no_entities
                           (list mail_event) parsed_email faulty_mailbox))
             [] [1] 2 [3] [] _ _ IMAPClientError _ eq_refl L eq_refl).
Defined.

(** C9, as the claim words it, fails: in a mailbox whose second message
    cannot be fetched, the first message is fetched, analysed and moved,
    the third is never fetched, and the run returns no result at all. *)
Lemma fetch_failure_discards_earlier_results :
  fst (process_emails latin1_db numeric_parser distinct no_entities
         faulty_mailbox [])
  = []
  /\ snd (process_emails latin1_db numeric_parser distinct no_entities
            faulty_mailbox [])
     = [Fetched 1; Moved 1]
  /\ (exists result,
        fst (process_loop latin1_db numeric_parser distinct no_entities
               faulty_mailbox [1] [] [])
        = Ok [result]
        /\ res_id result = 1)
  /\ fst (imap_fetch faulty_mailbox 3 [Fetched 1; Moved 1])
     = Ok (sample_email 3).
Proof.
  split; [vm_compute; reflexivity |]. split; [vm_compute; reflexivity |].
  split; [| reflexivity].
  eexists. split; [vm_compute; reflexivity | reflexivity].
Qed.

(** ** The end-to-end scenario *)

(** The message of the scenario, with the entities of the rules: every
    key is as expected but the duration, which is empty. *)
Example night_shift_scenario :
  extract_from_ents latin1_db numeric_parser distinct
    night_shift_request night_shift_entities
  = Ok {| profession := [py "INFIRMIÈRE"];
          shifts := [py "quart de nuit"];
          locations := [];
          dates := [py "15/03/2025"];
          shift_duration := [];
          urgence := true |}.
Proof. vm_compute. reflexivity. Qed.

(** ** More on the duration *)

(** The duration of a shift that does not end, on the clock, before it
    starts: no day is added. *)
Lemma same_day_duration (start end_ : datetime) :
  year start = 1900 /\ month start = 1 /\ day start = 1 /\ second start = 0
  /\ 0 <= hour start <= 23 /\ 0 <= minute start <= 59 ->
  year end_ = 1900 /\ month end_ = 1 /\ day end_ = 1 /\ second end_ = 0
  /\ 0 <= hour end_ <= 23 /\ 0 <= minute end_ <= 59 ->
  seconds_of_day start <= seconds_of_day end_ ->
  datetime_ltb end_ start = false
  /\ td_seconds (datetime_sub end_ start)
     = seconds_of_day end_ - seconds_of_day start.
Proof.
  intros (Sy & Sm & Sd & Ss & Sh & Smin) (Ey & Em & Ed & Es & Eh & Emin) Le.
  split.
  - destruct (datetime_ltb end_ start) eqn:L; [| reflexivity].
    apply datetime_ltb_same_day in L; lia.
  - destruct start as [sy smo sd sh smi ss], end_ as [ey emo ed eh emi es].
    cbn [year month day hour minute second] in *. subst.
    unfold datetime_sub, toordinal, seconds_of_day in *.
    cbn [year month day hour minute second td_seconds] in *.
    rewrite Z.sub_diag, Z.mul_0_l, Z.add_0_l. rewrite Z.mod_small; lia.
Qed.

(** The duration once the two times are known. *)
Lemma duration_of_accepted_times
    (U : unicode_db) (text : str) (time_match : match_obj)
    (start end_ : datetime) :
  re_search (re_time_range U) text = Some time_match ->
  strptime_HM U (replace_char 104 58 (group time_match 1)) = Ok start ->
  strptime_HM U (replace_char 104 58 (group time_match 2)) = Ok end_ ->
  _calculate_shift_duration U text
  = Ok (str_of_int
          (((seconds_of_day end_ - seconds_of_day start) mod 86400) / 3600)
        ++ py "h")
  /\ 0 <= ((seconds_of_day end_ - seconds_of_day start) mod 86400) / 3600 <= 23.
Proof.
  intros S P1 P2.
  pose proof (strptime_HM_date U _ _ P1) as D1.
  pose proof (strptime_HM_date U _ _ P2) as D2.
  split.
  - unfold _calculate_shift_duration. rewrite S, P1, P2. cbn [bind].
    destruct (Z.lt_ge_cases (seconds_of_day end_) (seconds_of_day start)) as [Lt | Ge].
    + destruct (overnight_duration start end_ D1 D2 Lt) as (Hlt & next & Hnext & Hsec).
      rewrite Hlt, Hnext. cbn [bind try_except]. rewrite Hsec.
      do 3 f_equal.
      assert (0 <= seconds_of_day end_ /\ seconds_of_day start < 86400)
        by (unfold seconds_of_day in *; lia).
      symmetry.
      rewrite <- (Z.mod_small (seconds_of_day end_ + 86400 - seconds_of_day start) 86400)
        by lia.
      replace (seconds_of_day end_ + 86400 - seconds_of_day start)
        with (seconds_of_day end_ - seconds_of_day start + 1 * 86400) by lia.
      now rewrite Z.mod_add by lia.
    + destruct (same_day_duration start end_ D1 D2 Ge) as (Hlt & Hsec).
      rewrite Hlt. cbn [bind try_except]. rewrite Hsec.
      do 3 f_equal.
      assert (0 <= seconds_of_day start /\ seconds_of_day end_ < 86400)
        by (unfold seconds_of_day in *; lia).
      now rewrite Z.mod_small by lia.
  - pose proof (Z.mod_pos_bound (seconds_of_day end_ - seconds_of_day start) 86400).
    split.
    + apply Z.div_pos; lia.
    + apply Z.lt_succ_r. apply Z.div_lt_upper_bound; lia.
Qed.

(** X1: when the two times of the first time range are accepted by
    [strptime], the duration is the time from the start to the end on a
    clock of 24 hours, in whole hours, whether the shift passes midnight
    or not; it lies between 0 and 23. *)
Theorem shift_duration_is_clock_difference
    (U : unicode_db) (text : str) (time_match : match_obj)
    (start end_ : datetime) :
  re_search (re_time_range U) text = Some time_match ->
  strptime_HM U (replace_char 104 58 (group time_match 1)) = Ok start ->
  strptime_HM U (replace_char 104 58 (group time_match 2)) = Ok end_ ->
  _calculate_shift_duration U text
  = Ok (str_of_int
          (((seconds_of_day end_ - seconds_of_day start) mod 86400) / 3600)
        ++ py "h")
  /\ 0 <= ((seconds_of_day end_ - seconds_of_day start) mod 86400) / 3600 <= 23.
Proof.
  intros S P1 P2. split.
  - exact (proj1 (duration_of_accepted_times U text time_match start end_ S P1 P2)).
  - exact (proj2 (duration_of_accepted_times U text time_match start end_ S P1 P2)).
Qed.

Lemma shift_duration_is_clock_difference_witness :
  re_search (re_time_range latin1_db) (py "Jour : 7h30 au 15h45")
  = Some {| m_subject := py "7h30 au 15h45"; m_end := 13;
            m_caps := [(2%nat, (8%nat, 13%nat)); (1%nat, (0%nat, 4%nat))] |}
  /\ strptime_HM latin1_db (py "7:30")
     = Ok {| year := 1900; month := 1; day := 1;
             hour := 7; minute := 30; second := 0 |}
  /\ strptime_HM latin1_db (py "15:45")
     = Ok {| year := 1900; month := 1; day := 1;
             hour := 15; minute := 45; second := 0 |}
  /\ _calculate_shift_duration latin1_db (py "Jour : 7h30 au 15h45")
     = Ok (py "8h").
Proof.
  split; [reflexivity |]. split; [reflexivity |]. split; [reflexivity |].
  exact (proj1 (shift_duration_is_clock_difference latin1_db
                  (py "Jour : 7h30 au 15h45") _ _ _ eq_refl eq_refl eq_refl)).
Defined.

(** X2: on every text the duration is either empty or a whole number of
    hours between 0 and 23 followed by [h]. *)
Theorem shift_duration_empty_or_below_a_day (U : unicode_db) (text : str) :
  _calculate_shift_duration U text = Ok []
  \/ exists hours,
       0 <= hours <= 23
       /\ _calculate_shift_duration U text = Ok (str_of_int hours ++ py "h").
Proof.
  destruct (re_search (re_time_range U) text) as [m |] eqn:S.
  - destruct (strptime_HM U (replace_char 104 58 (group m 1))) as [start | e] eqn:P1.
    + destruct (strptime_HM U (replace_char 104 58 (group m 2))) as [end_ | e] eqn:P2.
      * right.
        destruct (duration_of_accepted_times U text m start end_ S P1 P2)
          as (E & B).
        eexists. split; [exact B | exact E].
      * left. unfold _calculate_shift_duration. now rewrite S, P1, P2.
    + left. unfold _calculate_shift_duration. now rewrite S, P1.
  - left. unfold _calculate_shift_duration. now rewrite S.
Qed.

(** ** Times as the messages write them *)

Lemma ascii_digit_is_decimal (U : unicode_db) (c : codepoint) :
  ascii_digit c = true -> is_decimal U c = true.
Proof.
  unfold ascii_digit, is_decimal, decimal_value. intros H. rewrite H.
  apply between_spec in H.
  replace (c <? 256) with true; [reflexivity |].
  symmetry. apply Z.ltb_lt. lia.
Qed.

Lemma ascii_digit_not_space (U : unicode_db) (c : codepoint) :
  ascii_digit c = true -> is_space U c = false.
Proof.
  unfold ascii_digit, is_space. intros H. apply between_spec in H.
  replace (c <? 256) with true by (symmetry; apply Z.ltb_lt; lia).
  unfold between.
  repeat match goal with
    | |- context [?x <=? ?y] => destruct (Z.leb_spec x y); try lia
    end;
  repeat match goal with
    | |- context [?x =? ?y] => destruct (Z.eqb_spec x y); try lia
    end;
  reflexivity.
Qed.

Lemma str_of_int_below_100 (n : Z) :
  0 <= n < 100 ->
  str_of_int n = if n <? 10 then [48 + n] else [48 + n / 10; 48 + n mod 10].
Proof.
  intros Hn. apply str_eqb_eq.
  apply (forall_below
           (fun n => str_eqb (str_of_int n)
                       (if n <? 10 then [48 + n]
                        else [48 + n / 10; 48 + n mod 10])) 100);
    [vm_compute; reflexivity | assumption].
Qed.

Lemma clock_text_shaped (letter : codepoint) (h m : Z) :
  0 <= h <= 23 -> 0 <= m <= 59 -> clock_shaped letter (clock_text letter h m).
Proof.
  intros Hh Hm. unfold clock_text, clock_shaped.
  rewrite (str_of_int_below_100 h), (zero_pad_2 m) by lia.
  assert (D : forall x, 0 <= x <= 9 -> ascii_digit (48 + x) = true)
    by (intros x Hx; apply between_spec; lia).
  destruct (Z.ltb_spec h 10).
  - left. do 3 eexists. split; [reflexivity |].
    repeat constructor; apply D; Z.div_mod_to_equations; lia.
  - right. do 4 eexists. split; [reflexivity |].
    repeat constructor; apply D; Z.div_mod_to_equations; lia.
Qed.

Ltac use_digits U :=
  repeat match goal with
    | H : ascii_digit ?c = true |- context [is_decimal U ?c] =>
        rewrite (ascii_digit_is_decimal U c H)
    | H : ascii_digit ?c = true |- context [is_space U ?c] =>
        rewrite (ascii_digit_not_space U c H)
    end.

(** A written clock time is taken whole by its part of the pattern when
    the rest of the pattern succeeds after it. *)
Lemma run_clock
    (R : Type) (U : unicode_db) (n : nat) (prev : option codepoint) (pos : nat)
    (letter : codepoint) (g rest : str) (caps : captures)
    (k : option codepoint -> nat -> str -> captures -> option R) (r : R) :
  letter = 104 \/ letter = 72 ->
  clock_shaped letter g ->
  k (last_char prev g) (List.length g + pos)%nat rest
    ((n, (pos, (List.length g + pos)%nat)) :: caps) = Some r ->
  run (re_clock U n) prev pos (g ++ rest) caps k = Some r.
Proof.
  intros L S K. unfold re_clock, lit_i.
  destruct S as [(a & c & d & -> & F) | (a & b & c & d & -> & F)];
    repeat match goal with
      | H : Forall _ (_ :: _) |- _ => inversion H; subst; clear H
      end;
    destruct L as [-> | ->]; cbn in K |- *; use_digits U; cbn;
    use_digits U; cbn; use_digits U; cbn; rewrite K; reflexivity.
Qed.

Lemma run_connector
    (R : Type) (U : unicode_db) (prev : option codepoint) (pos : nat)
    (conn : str) (x : codepoint) (rest : str) (caps : captures)
    (k : option codepoint -> nat -> str -> captures -> option R) (r : R) :
  In conn connectors ->
  is_space U x = false ->
  k (last_char prev conn) (List.length conn + pos)%nat (x :: rest) caps = Some r ->
  run (Star (is_space U)) prev pos (conn ++ x :: rest) caps
    (fun prev1 pos1 s1 caps1 =>
       run (Alt (lit 45) (Alt (lit_i U 224) (Cat (lit_i U 97) (lit_i U 117))))
         prev1 pos1 s1 caps1
         (fun prev2 pos2 s2 caps2 =>
            run (Star (is_space U)) prev2 pos2 s2 caps2 k))
  = Some r.
Proof.
  intros C X K. unfold connectors in C. cbn [In] in C.
  repeat (destruct C as [C | C]); try contradiction; subst conn;
    unfold lit, lit_i; cbn in K |- *; rewrite ?X; cbn; rewrite K; reflexivity.
Qed.

Lemma slice_prefix (g rest : str) : slice (g ++ rest) 0 (List.length g + 0) = g.
Proof.
  unfold slice. rewrite Nat.add_0_r, Nat.sub_0_r. cbn [skipn].
  rewrite firstn_app, Nat.sub_diag, firstn_all. cbn [firstn]. apply app_nil_r.
Qed.

Lemma slice_middle (a g rest : str) :
  slice (a ++ g ++ rest) (List.length a) (List.length g + List.length a) = g.
Proof.
  unfold slice. rewrite Nat.add_sub.
  rewrite skipn_app, Nat.sub_diag, skipn_all. cbn [skipn app].
  rewrite firstn_app, Nat.sub_diag, firstn_all. cbn [firstn]. apply app_nil_r.
Qed.

Lemma clock_shaped_head (U : unicode_db) (letter : codepoint) (g : str) :
  clock_shaped letter g ->
  exists x g', g = x :: g' /\ is_space U x = false.
Proof.
  intros [(a & c & d & -> & F) | (a & b & c & d & -> & F)];
    inversion F; subst; eexists; eexists; (split; [reflexivity |]);
    now apply ascii_digit_not_space.
Qed.

Lemma match_written_range
    (U : unicode_db) (prev : option codepoint)
    (l1 l2 : codepoint) (g1 g2 conn after : str) :
  l1 = 104 \/ l1 = 72 -> l2 = 104 \/ l2 = 72 ->
  clock_shaped l1 g1 -> clock_shaped l2 g2 -> In conn connectors ->
  exists m,
    match_at (re_time_range U) prev (g1 ++ conn ++ g2 ++ after) = Some m
    /\ group m 1 = g1 /\ group m 2 = g2.
Proof.
  intros L1 L2 S1 S2 C.
  destruct (clock_shaped_head U l2 g2 S2) as (x & g2' & E2 & X).
  eexists. split.
  - unfold match_at, re_time_range. cbn [run].
    apply (run_clock _ U 1 prev 0 l1 g1 _ _ _ _ L1 S1).
    rewrite E2. cbn [app].
    apply (run_connector _ U _ _ conn x (g2' ++ after) _ _ _ C X).
    change (x :: g2' ++ after) with ((x :: g2') ++ after). rewrite <- E2.
    apply (run_clock _ U 2 _ _ l2 g2 _ _ _ _ L2 S2).
    reflexivity.
  - unfold group. cbn [m_caps capture Nat.eqb m_subject]. split.
    + apply slice_prefix.
    + rewrite Nat.add_0_r.
      replace (List.length conn + List.length g1)%nat
        with (List.length (g1 ++ conn)) by (rewrite length_app; lia).
      rewrite (app_assoc g1 conn). apply slice_middle.
Qed.

Lemma strptime_written (U : unicode_db) (h m : Z) :
  0 <= h <= 23 -> 0 <= m <= 59 ->
  strptime_HM U (replace_char 104 58 (clock_text 104 h m))
  = Ok {| year := 1900; month := 1; day := 1;
          hour := h; minute := m; second := 0 |}.
Proof.
  intros Hh Hm.
  pose (P := fun n =>
          match strptime_HM U (replace_char 104 58
                                 (clock_text 104 (n / 60) (n mod 60))) with
          | Ok d => (year d =? 1900) && (month d =? 1) && (day d =? 1)
                    && (hour d =? n / 60) && (minute d =? n mod 60)
                    && (second d =? 0)
          | Raise _ => false
          end).
  assert (A : P (h * 60 + m) = true).
  { apply (forall_below P 1440); [vm_compute; reflexivity | lia]. }
  unfold P in A.
  replace ((h * 60 + m) / 60) with h in A by (Z.div_mod_to_equations; lia).
  replace ((h * 60 + m) mod 60) with m in A by (Z.div_mod_to_equations; lia).
  destruct (strptime_HM U _) as [d |]; [| discriminate].
  rewrite !andb_true_iff, !Z.eqb_eq in A.
  destruct d; cbn in A. destruct A as (((((-> & ->) & ->) & ->) & ->) & ->).
  reflexivity.
Qed.

Lemma strptime_capital (U : unicode_db) (h m : Z) :
  0 <= h <= 23 -> 0 <= m <= 59 ->
  strptime_HM U (replace_char 104 58 (clock_text 72 h m)) = Raise ValueError.
Proof.
  intros Hh Hm.
  pose (P := fun n =>
          match strptime_HM U (replace_char 104 58
                                 (clock_text 72 (n / 60) (n mod 60))) with
          | Raise ValueError => true
          | _ => false
          end).
  assert (A : P (h * 60 + m) = true).
  { apply (forall_below P 1440); [vm_compute; reflexivity | lia]. }
  unfold P in A.
  replace ((h * 60 + m) / 60) with h in A by (Z.div_mod_to_equations; lia).
  replace ((h * 60 + m) mod 60) with m in A by (Z.div_mod_to_equations; lia).
  destruct (strptime_HM U _) as [d | []]; try discriminate. reflexivity.
Qed.

Lemma search_written_range
    (U : unicode_db) (l1 l2 : codepoint) (h1 m1 h2 m2 : Z)
    (before conn after : str) :
  l1 = 104 \/ l1 = 72 -> l2 = 104 \/ l2 = 72 ->
  0 <= h1 <= 23 -> 0 <= m1 <= 59 -> 0 <= h2 <= 23 -> 0 <= m2 <= 59 ->
  In conn connectors ->
  Forall (fun c => is_decimal U c = false) before ->
  exists m,
    re_search (re_time_range U)
      (before ++ clock_text l1 h1 m1 ++ conn ++ clock_text l2 h2 m2 ++ after)
    = Some m
    /\ group m 1 = clock_text l1 h1 m1 /\ group m 2 = clock_text l2 h2 m2.
Proof.
  intros L1 L2 H1 M1 H2 M2 C F. unfold re_search.
  destruct (search_time_range_skips U before
              (clock_text l1 h1 m1 ++ conn ++ clock_text l2 h2 m2 ++ after)
              None F) as [prev ->].
  destruct (match_written_range U prev l1 l2 _ _ conn after L1 L2
              (clock_text_shaped l1 h1 m1 H1 M1)
              (clock_text_shaped l2 h2 m2 H2 M2) C) as (m & M & G1 & G2).
  exists m. split; [now apply search_from_here | now split].
Qed.

Lemma no_digit_check (U : unicode_db) (s : str) :
  forallb (fun c => negb (is_decimal U c)) s = true ->
  Forall (fun c => is_decimal U c = false) s.
Proof.
  intros H. apply Forall_forall. intros c Hc.
  rewrite forallb_forall in H. now apply negb_true_iff, H.
Qed.

(** X3: two clock times written with [h] and two minute digits, joined
    by a hyphen, [à] or [au], and preceded by no digit, give the time
    from the first to the second on a clock of 24 hours, in whole hours,
    whatever follows them. *)
Theorem written_shift_duration
    (U : unicode_db) (h1 m1 h2 m2 : Z) (before conn after : str) :
  0 <= h1 <= 23 -> 0 <= m1 <= 59 -> 0 <= h2 <= 23 -> 0 <= m2 <= 59 ->
  In conn connectors ->
  Forall (fun c => is_decimal U c = false) before ->
  _calculate_shift_duration U
    (before ++ clock_text 104 h1 m1 ++ conn ++ clock_text 104 h2 m2 ++ after)
  = Ok (str_of_int ((((h2 * 60 + m2) - (h1 * 60 + m1)) mod 1440) / 60)
        ++ py "h").
Proof.
  intros H1 M1 H2 M2 C F.
  destruct (search_written_range U 104 104 h1 m1 h2 m2 before conn after
              (or_introl eq_refl) (or_introl eq_refl) H1 M1 H2 M2 C F)
    as (m & S & G1 & G2).
  pose proof (strptime_written U h1 m1 H1 M1) as P1.
  pose proof (strptime_written U h2 m2 H2 M2) as P2.
  rewrite <- G1 in P1. rewrite <- G2 in P2.
  rewrite (proj1 (duration_of_accepted_times U _ m _ _ S P1 P2)).
  unfold seconds_of_day. cbn [hour minute second].
  do 3 f_equal.
  replace (h2 * 3600 + m2 * 60 + 0 - (h1 * 3600 + m1 * 60 + 0))
    with (60 * (h2 * 60 + m2 - (h1 * 60 + m1))) by lia.
  change 86400 with (60 * 1440). change 3600 with (60 * 60).
  rewrite Z.mul_mod_distr_l by lia. now rewrite Z.div_mul_cancel_l by lia.
Qed.

Lemma written_shift_duration_witness :
  (0 <= 23 <= 23 /\ 0 <= 45 <= 59 /\ 0 <= 7 <= 23 /\ 0 <= 15 <= 59)
  /\ In (py " à ") connectors
  /\ Forall (fun c => is_decimal latin1_db c = false) (py "Quart de nuit : ")
  /\ _calculate_shift_duration latin1_db
       (py "Quart de nuit : " ++ clock_text 104 23 45 ++ py " à "
        ++ clock_text 104 7 15 ++ py ", merci")
     = Ok (py "7h").
Proof.
  assert (B : 0 <= 23 <= 23 /\ 0 <= 45 <= 59 /\ 0 <= 7 <= 23 /\ 0 <= 15 <= 59) by lia.
  assert (C : In (py " à ") connectors) by (cbn; tauto).
  assert (F : Forall (fun c => is_decimal latin1_db c = false)
                (py "Quart de nuit : "))
    by (apply no_digit_check; vm_compute; reflexivity).
  split; [exact B |]. split; [exact C |]. split; [exact F |].
  destruct B as (B1 & B2 & B3 & B4).
  exact (written_shift_duration latin1_db 23 45 7 15 _ _ (py ", merci")
           B1 B2 B3 B4 C F).
Defined.

(** X4: the pattern ignores case and so matches a time written with a
    capital [H], but only the small [h] is replaced by a colon: when one
    of the two times is written with [H], the range is matched and the
    duration is empty. *)
Theorem capital_H_gives_no_duration
    (U : unicode_db) (l1 l2 : codepoint) (h1 m1 h2 m2 : Z)
    (before conn after : str) :
  l1 = 104 \/ l1 = 72 -> l2 = 104 \/ l2 = 72 ->
  l1 = 72 \/ l2 = 72 ->
  0 <= h1 <= 23 -> 0 <= m1 <= 59 -> 0 <= h2 <= 23 -> 0 <= m2 <= 59 ->
  In conn connectors ->
  Forall (fun c => is_decimal U c = false) before ->
  (exists time_match,
      re_search (re_time_range U)
        (before ++ clock_text l1 h1 m1 ++ conn ++ clock_text l2 h2 m2 ++ after)
      = Some time_match)
  /\ _calculate_shift_duration U
       (before ++ clock_text l1 h1 m1 ++ conn ++ clock_text l2 h2 m2 ++ after)
     = Ok [].
Proof.
  intros L1 L2 Cap H1 M1 H2 M2 C F.
  destruct (search_written_range U l1 l2 h1 m1 h2 m2 before conn after
              L1 L2 H1 M1 H2 M2 C F) as (m & S & G1 & G2).
  split; [now exists m |].
  unfold _calculate_shift_duration. rewrite S, G1, G2.
  destruct L1 as [-> | ->].
  - destruct Cap as [Cap | ->]; [discriminate |].
    rewrite (strptime_written U h1 m1 H1 M1), (strptime_capital U h2 m2 H2 M2).
    reflexivity.
  - now rewrite (strptime_capital U h1 m1 H1 M1).
Qed.

Lemma capital_H_gives_no_duration_witness :
  (72 = 104 \/ 72 = 72) /\ (72 = 104 \/ 72 = 72) /\ (72 = 72 \/ 72 = 72)
  /\ (0 <= 8 <= 23 /\ 0 <= 0 <= 59 /\ 0 <= 16 <= 23 /\ 0 <= 0 <= 59)
  /\ In (py "-") connectors
  /\ Forall (fun c => is_decimal latin1_db c = false) (py "Quart de jour : ")
  /\ py "Quart de jour : " ++ clock_text 72 8 0 ++ py "-" ++ clock_text 72 16 0 ++ []
     = py "Quart de jour : 8H00-16H00"
  /\ _calculate_shift_duration latin1_db (py "Quart de jour : 8H00-16H00") = Ok [].
Proof.
  assert (L : 72 = 104 \/ 72 = 72) by (right; reflexivity).
  assert (B : 0 <= 8 <= 23 /\ 0 <= 0 <= 59 /\ 0 <= 16 <= 23 /\ 0 <= 0 <= 59) by lia.
  assert (C : In (py "-") connectors) by (cbn; tauto).
  assert (F : Forall (fun c => is_decimal latin1_db c = false)
                (py "Quart de jour : "))
    by (apply no_digit_check; vm_compute; reflexivity).
  split; [exact L |]. split; [exact L |]. split; [exact (or_introl eq_refl) |].
  split; [exact B |]. split; [exact C |]. split; [exact F |].
  split; [reflexivity |].
  destruct B as (B1 & B2 & B3 & B4).
  exact (proj2 (capital_H_gives_no_duration latin1_db 72 72 8 0 16 0 _ _ []
                  L L (or_introl eq_refl) B1 B2 B3 B4 C F)).
Defined.

(** ** What the record holds *)

Lemma parse_date_cases
    (parser_parse : str -> result datetime) (text : str) (requirements : req_dict) :
  _parse_date parser_parse text requirements = Ok requirements
  \/ exists d,
       parser_parse text = Ok d /\ 2020 < year d < 2030
       /\ _parse_date parser_parse text requirements
          = Ok (set_dates (dates requirements ++ [strftime_dmY d]) requirements).
Proof.
  unfold _parse_date.
  destruct (parser_parse text) as [d | e]; cbn [bind try_except]; [| now left].
  destruct ((2020 <? year d) && (year d <? 2030)) eqn:Y; [| now left].
  right. exists d. apply andb_true_iff in Y. rewrite !Z.ltb_lt in Y.
  repeat split; tauto.
Qed.

(** What one turn of the loop does to [profession], [shifts] and
    [dates]. *)
Lemma route_entity_sets
    (U : unicode_db) (parser_parse : str -> result datetime)
    (requirements : req_dict) (ent : entity) :
  exists requirements',
    route_entity U parser_parse requirements ent = Ok requirements'
    /\ profession requirements'
       = profession requirements
         ++ (if str_eqb (label_ ent) (py "MEDICAL_PROFESSION")
             then [str_upper U (text_ ent)] else [])
    /\ shifts requirements'
       = shifts requirements
         ++ (if str_eqb (label_ ent) (py "SHIFT_TIME")
             then [str_lower U (text_ ent)] else [])
    /\ (dates requirements' = dates requirements
        \/ (label_ ent = py "DATE"
            /\ exists d,
                 parser_parse (text_ ent) = Ok d /\ 2020 < year d < 2030
                 /\ dates requirements'
                    = dates requirements ++ [strftime_dmY d])).
Proof.
  unfold route_entity.
  destruct (str_mem (label_ ent) [py "GPE"; py "LOC"]
            && negb (str_mem (str_lower U (text_ ent)) location_blacklist)) eqn:Place.
  { apply andb_true_iff in Place. destruct Place as [L _].
    eexists. split; [reflexivity |].
    cbn [profession shifts dates set_locations].
    label_known; rewrite !app_nil_r;
      (split; [reflexivity |]); (split; [reflexivity |]); now left. }
  destruct (str_eqb (label_ ent) (py "DATE")) eqn:Date.
  { apply str_eqb_eq in Date.
    destruct (parse_date_cases parser_parse (text_ ent) requirements)
      as [E | (d & P & Y & E)]; rewrite E; eexists; (split; [reflexivity |]);
      rewrite Date; cbn [profession shifts dates set_dates];
      rewrite !app_nil_r; (split; [reflexivity |]); (split; [reflexivity |]).
    - now left.
    - right. split; [reflexivity |]. now exists d. }
  destruct (str_eqb (label_ ent) (py "MEDICAL_PROFESSION")) eqn:Prof.
  { eexists. split; [reflexivity |].
    cbn [profession shifts dates set_profession].
    label_known. rewrite !app_nil_r.
    split; [reflexivity |]. split; [reflexivity |]. now left. }
  destruct (str_eqb (label_ ent) (py "SHIFT_TIME")) eqn:Shift.
  { eexists. split; [reflexivity |].
    cbn [profession shifts dates set_shifts].
    apply str_eqb_eq in Shift. rewrite Shift. rewrite !app_nil_r.
    split; [reflexivity |]. split; [reflexivity |]. now left. }
  destruct (str_eqb (label_ ent) (py "URGENCY")); eexists;
    (split; [reflexivity |]); cbn [profession shifts dates set_urgence];
    rewrite !app_nil_r; (split; [reflexivity |]); (split; [reflexivity |]);
    now left.
Qed.

Lemma route_entities_sets
    (U : unicode_db) (parser_parse : str -> result datetime)
    (ents : list entity) (requirements : req_dict) :
  exists requirements',
    route_entities U parser_parse requirements ents = Ok requirements'
    /\ profession requirements'
       = profession requirements
         ++ map (fun ent => str_upper U (text_ ent))
              (filter (fun ent => str_eqb (label_ ent) (py "MEDICAL_PROFESSION"))
                 ents)
    /\ shifts requirements'
       = shifts requirements
         ++ map (fun ent => str_lower U (text_ ent))
              (filter (fun ent => str_eqb (label_ ent) (py "SHIFT_TIME")) ents)
    /\ (forall x, In x (dates requirements') ->
          In x (dates requirements)
          \/ exists ent d,
               In ent ents /\ label_ ent = py "DATE"
               /\ parser_parse (text_ ent) = Ok d /\ 2020 < year d < 2030
               /\ x = strftime_dmY d).
Proof.
  revert requirements. induction ents as [|ent ents IH]; intros requirements.
  - exists requirements. cbn. rewrite !app_nil_r.
    split; [reflexivity |]. split; [reflexivity |]. split; [reflexivity |].
    intros x Hx. now left.
  - destruct (route_entity_sets U parser_parse requirements ent)
      as (r1 & E1 & P1 & S1 & D1).
    destruct (IH r1) as (r2 & E2 & P2 & S2 & D2).
    exists r2. cbn [route_entities bind]. rewrite E1. cbn [bind].
    split; [exact E2 |]. rewrite P2, P1, S2, S1. cbn [filter].
    split; [| split].
    + rewrite <- app_assoc.
      now destruct (str_eqb (label_ ent) (py "MEDICAL_PROFESSION")).
    + rewrite <- app_assoc.
      now destruct (str_eqb (label_ ent) (py "SHIFT_TIME")).
    + intros x Hx. destruct (D2 x Hx) as [H1 | (ent' & d & Hin & Hl & P & Y & ->)].
      * destruct D1 as [D1 | (Hl & d & P & Y & D1)]; rewrite D1 in H1;
          [now left |].
        apply in_app_or in H1. destruct H1 as [H1 | [<- | []]]; [now left |].
        right. exists ent. exists d. repeat split; try tauto. now left.
      * right. exists ent'. exists d. repeat split; try tauto. now right.
Qed.

(** The keys [profession] and [shifts] before the duplicates are
    removed. *)
Lemma extract_from_ents_sets
    (U : unicode_db) (parser_parse : str -> result datetime)
    (list_of_set : list str -> list str) (text : str) (ents : list entity) :
  exists requirements,
    extract_from_ents U parser_parse list_of_set text ents = Ok requirements
    /\ profession requirements
       = list_of_set
           (map (fun ent => str_upper U (text_ ent))
              (filter (fun ent => str_eqb (label_ ent) (py "MEDICAL_PROFESSION"))
                 ents))
    /\ shifts requirements
       = list_of_set
           (map (fun ent => str_lower U (text_ ent))
              (filter (fun ent => str_eqb (label_ ent) (py "SHIFT_TIME")) ents)).
Proof.
  destruct (extract_from_ents_result U parser_parse list_of_set text ents)
    as (looped & duration & L & _ & E).
  destruct (route_entities_sets U parser_parse ents empty_requirements)
    as (looped' & L' & P & S & _).
  rewrite L in L'. injection L' as <-.
  eexists. split; [exact E |]. cbn [profession shifts].
  rewrite P, S. split; reflexivity.
Qed.

(** X5: [profession] holds exactly the upper-cased texts of the entities
    labelled [MEDICAL_PROFESSION], and [shifts] exactly the lower-cased
    texts of the entities labelled [SHIFT_TIME]. *)
Theorem professions_and_shifts_come_from_entities
    (U : unicode_db) (parser_parse : str -> result datetime)
    (list_of_set : list str -> list str) (text : str) (ents : list entity) :
  (forall xs x, In x (list_of_set xs) <-> In x xs) ->
  exists requirements,
    extract_from_ents U parser_parse list_of_set text ents = Ok requirements
    /\ (forall x, In x (profession requirements) <->
          exists ent, In ent ents /\ label_ ent = py "MEDICAL_PROFESSION"
                      /\ x = str_upper U (text_ ent))
    /\ (forall x, In x (shifts requirements) <->
          exists ent, In ent ents /\ label_ ent = py "SHIFT_TIME"
                      /\ x = str_lower U (text_ ent)).
Proof.
  intros Hset.
  destruct (extract_from_ents_sets U parser_parse list_of_set text ents)
    as (r & E & P & S).
  exists r. split; [exact E |]. rewrite P, S. split; intros x;
    rewrite Hset, in_map_iff; split.
  - intros (ent & <- & Hin). apply filter_In in Hin. destruct Hin as [Hin Hl].
    exists ent. apply str_eqb_eq in Hl. now repeat split.
  - intros (ent & Hin & Hl & ->). exists ent. split; [reflexivity |].
    apply filter_In. split; [exact Hin | now apply str_eqb_eq].
  - intros (ent & <- & Hin). apply filter_In in Hin. destruct Hin as [Hin Hl].
    exists ent. apply str_eqb_eq in Hl. now repeat split.
  - intros (ent & Hin & Hl & ->). exists ent. split; [reflexivity |].
    apply filter_In. split; [exact Hin | now apply str_eqb_eq].
Qed.

Lemma professions_and_shifts_come_from_entities_witness :
  (forall xs x, In x (distinct xs) <-> In x xs)
  /\ exists requirements,
       extract_from_ents latin1_db numeric_parser distinct
         night_shift_request night_shift_entities = Ok requirements
       /\ (forall x, In x (profession requirements) <->
             exists ent, In ent night_shift_entities
                         /\ label_ ent = py "MEDICAL_PROFESSION"
                         /\ x = str_upper latin1_db (text_ ent))
       /\ (forall x, In x (shifts requirements) <->
             exists ent, In ent night_shift_entities
                         /\ label_ ent = py "SHIFT_TIME"
                         /\ x = str_lower latin1_db (text_ ent)).
Proof.
  split; [exact distinct_In |].
  exact (professions_and_shifts_come_from_entities latin1_db numeric_parser
           distinct night_shift_request night_shift_entities distinct_In).
Defined.

(** X6: the classification is [non_classe] when no entity is labelled
    [MEDICAL_PROFESSION], and otherwise the upper-cased text of one of
    the entities that are. *)
Theorem classification_comes_from_an_entity
    (U : unicode_db) (parser_parse : str -> result datetime)
    (list_of_set : list str -> list str) (text : str) (ents : list entity) :
  (forall xs x, In x (list_of_set xs) <-> In x xs) ->
  exists requirements,
    extract_from_ents U parser_parse list_of_set text ents = Ok requirements
    /\ ((forall ent, In ent ents -> label_ ent <> py "MEDICAL_PROFESSION") ->
        classify requirements = py "non_classe")
    /\ ((exists ent, In ent ents /\ label_ ent = py "MEDICAL_PROFESSION") ->
        exists ent,
          In ent ents /\ label_ ent = py "MEDICAL_PROFESSION"
          /\ classify requirements = str_upper U (text_ ent)).
Proof.
  intros Hset.
  destruct (extract_from_ents_sets U parser_parse list_of_set text ents)
    as (r & E & P & _).
  exists r. split; [exact E |]. unfold classify. rewrite P.
  set (found := filter (fun ent => str_eqb (label_ ent) (py "MEDICAL_PROFESSION"))
                  ents).
  split.
  - intros None_.
    assert (F : found = []).
    { destruct found as [|ent found'] eqn:Ef; [reflexivity |].
      assert (Hin : In ent found) by (rewrite Ef; now left).
      apply filter_In in Hin. destruct Hin as [Hin Hl].
      apply str_eqb_eq in Hl. destruct (None_ ent Hin Hl). }
    rewrite F. cbn [map].
    destruct (list_of_set []) as [|x xs] eqn:El; [reflexivity |].
    assert (Hx : In x (list_of_set [])) by (rewrite El; now left).
    apply (proj1 (Hset _ _)) in Hx. destruct Hx.
  - intros (ent & Hin & Hl).
    assert (Hup : In (str_upper U (text_ ent))
                    (list_of_set (map (fun ent => str_upper U (text_ ent)) found))).
    { apply (proj2 (Hset _ _)). apply in_map_iff. exists ent. split; [reflexivity |].
      apply filter_In. split; [exact Hin | now apply str_eqb_eq]. }
    destruct (list_of_set (map (fun ent => str_upper U (text_ ent)) found))
      as [|first others] eqn:El; [destruct Hup |].
    assert (Hf : In first (list_of_set
                             (map (fun ent => str_upper U (text_ ent)) found)))
      by (rewrite El; now left).
    apply (proj1 (Hset _ _)) in Hf. apply in_map_iff in Hf. destruct Hf as (ent' & <- & Hin').
    apply filter_In in Hin'. destruct Hin' as [Hin' Hl'].
    exists ent'. apply str_eqb_eq in Hl'. now repeat split.
Qed.

Lemma classification_comes_from_an_entity_witness :
  (forall xs x, In x (distinct xs) <-> In x xs)
  /\ exists requirements,
       extract_from_ents latin1_db numeric_parser distinct
         night_shift_request night_shift_entities = Ok requirements
       /\ ((forall ent, In ent night_shift_entities ->
              label_ ent <> py "MEDICAL_PROFESSION") ->
           classify requirements = py "non_classe")
       /\ ((exists ent, In ent night_shift_entities
                        /\ label_ ent = py "MEDICAL_PROFESSION") ->
           exists ent,
             In ent night_shift_entities
             /\ label_ ent = py "MEDICAL_PROFESSION"
             /\ classify requirements = str_upper latin1_db (text_ ent)).
Proof.
  split; [exact distinct_In |].
  exact (classification_comes_from_an_entity latin1_db numeric_parser
           distinct night_shift_request night_shift_entities distinct_In).
Defined.

(** ** What the date pattern adds *)

(** Group 1 of a match of the date pattern has the shape of a date and
    stands at the head of the subject. *)
Lemma date_match_group
    (U : unicode_db) (prev : option codepoint) (s : str) (m : match_obj) :
  match_at (re_date U) prev s = Some m ->
  date_shape U (group m 1) = true /\ exists rest, s = group m 1 ++ rest.
Proof.
  unfold match_at, re_date, lit. cbn.
  destruct (xorb (opt_class (is_word U) prev) (opt_class (is_word U) (hd_error s)));
    [| discriminate].
  destruct s as [|d0 s]; [discriminate |].
  destruct (is_decimal U d0) eqn:E0; [| discriminate].
  destruct s as [|d1 s]; [discriminate |].
  destruct (is_decimal U d1) eqn:E1; [| discriminate].
  destruct s as [|c2 s]; [discriminate |].
  destruct (Z.eqb_spec c2 47) as [-> |]; [| discriminate].
  destruct s as [|d3 s]; [discriminate |].
  destruct (is_decimal U d3) eqn:E3; [| discriminate].
  destruct s as [|d4 s]; [discriminate |].
  destruct (is_decimal U d4) eqn:E4; [| discriminate].
  destruct s as [|c5 s]; [discriminate |].
  destruct (Z.eqb_spec c5 47) as [-> |]; [| discriminate].
  destruct s as [|d6 s]; [discriminate |].
  destruct (is_decimal U d6) eqn:E6; [| discriminate].
  destruct s as [|d7 s]; [discriminate |].
  destruct (is_decimal U d7) eqn:E7; [| discriminate].
  destruct s as [|d8 s]; [discriminate |].
  destruct (is_decimal U d8) eqn:E8; [| discriminate].
  destruct s as [|d9 s]; [discriminate |].
  destruct (is_decimal U d9) eqn:E9; [| discriminate].
  destruct (xorb (is_word U d9) (opt_class (is_word U) (hd_error s)));
    [| discriminate].
  intros E. injection E as <-.
  change (group _ 1) with [d0; d1; 47; d3; d4; 47; d6; d7; d8; d9].
  split; [| now exists s].
  cbn. now rewrite E0, E1, E3, E4, E6, E7, E8, E9.
Qed.

(** Every string that [re.findall] returns for the date pattern has the
    shape of a date and stands in the text. *)
Lemma findall_date_sound (U : unicode_db) (s : str) :
  forall prev skip x,
    In x (findall_from (re_date U) prev skip s) ->
    date_shape U x = true /\ exists before after, s = before ++ x ++ after.
Proof.
  induction s as [|c s IH]; intros prev skip x Hin.
  - destruct skip; [| destruct Hin]. cbn [findall_from] in Hin.
    destruct (match_at (re_date U) prev []) as [m |] eqn:M; [| destruct Hin].
    destruct (date_match_group U prev [] m M) as (Shape & rest & E).
    destruct (group m 1); [discriminate Shape | discriminate E].
  - destruct skip as [|n].
    + rewrite findall_from_try in Hin.
      destruct (match_at (re_date U) prev (c :: s)) as [m |] eqn:M.
      * destruct Hin as [<- | Hin].
        -- destruct (date_match_group U prev (c :: s) m M) as (Shape & rest & E).
           split; [exact Shape |]. exists []. exists rest. exact E.
        -- destruct (IH _ _ _ Hin) as (Shape & before & after & ->).
           split; [exact Shape |]. exists (c :: before). now exists after.
      * destruct (IH _ _ _ Hin) as (Shape & before & after & ->).
        split; [exact Shape |]. exists (c :: before). now exists after.
    + rewrite findall_from_skip in Hin.
      destruct (IH _ _ _ Hin) as (Shape & before & after & ->).
      split; [exact Shape |]. exists (c :: before). now exists after.
Qed.

Lemma add_date_matches_from (date_matches ds : list str) (x : str) :
  In x (add_date_matches date_matches ds) -> In x ds \/ In x date_matches.
Proof.
  revert ds. induction date_matches as [|date rest IH]; intros ds H; [now left |].
  cbn [add_date_matches] in H. apply IH in H. destruct H as [H | H].
  - destruct (str_mem date ds); cbn [negb] in H; [now left |].
    apply in_app_or in H. destruct H as [H | [<- | []]]; [now left |].
    right. now left.
  - right. now right.
Qed.

Lemma add_date_matches_NoDup (date_matches ds : list str) :
  NoDup ds -> NoDup (add_date_matches date_matches ds).
Proof.
  revert ds. induction date_matches as [|date rest IH]; intros ds H; [exact H |].
  cbn [add_date_matches]. apply IH.
  destruct (str_mem date ds) eqn:E; cbn [negb]; [exact H |].
  apply str_mem_not_In in E.
  apply NoDup_app; [exact H | repeat constructor; intros [] |].
  intros y Hy [<- | []]. contradiction.
Qed.

(** X7: [dates] holds nothing but the dates that [_parse_date] accepted
    for an entity labelled [DATE], written [DD/MM/YYYY], and the strings
    of the text that have the shape of the date pattern. *)
Theorem dates_come_from_entities_or_text
    (U : unicode_db) (parser_parse : str -> result datetime)
    (list_of_set : list str -> list str) (text : str) (ents : list entity) :
  exists requirements,
    extract_from_ents U parser_parse list_of_set text ents = Ok requirements
    /\ forall x, In x (dates requirements) ->
         (exists ent d,
             In ent ents /\ label_ ent = py "DATE"
             /\ parser_parse (text_ ent) = Ok d /\ 2020 < year d < 2030
             /\ x = strftime_dmY d)
         \/ (date_shape U x = true
             /\ exists before after, text = before ++ x ++ after).
Proof.
  destruct (extract_from_ents_result U parser_parse list_of_set text ents)
    as (looped & duration & L & _ & E).
  destruct (route_entities_sets U parser_parse ents empty_requirements)
    as (looped' & L' & _ & _ & D).
  rewrite L in L'. injection L' as <-.
  eexists. split; [exact E |]. cbn [dates]. intros x Hx.
  apply add_date_matches_from in Hx. destruct Hx as [Hx | Hx].
  - left. destruct (D x Hx) as [[] | H]. exact H.
  - right. exact (findall_date_sound U text None 0%nat x Hx).
Qed.

(** X8: when no entity is labelled [DATE], [dates] holds the strings
    found by the date pattern and holds each of them once. *)
Theorem dates_without_date_entity_are_distinct
    (U : unicode_db) (parser_parse : str -> result datetime)
    (list_of_set : list str -> list str) (text : str) (ents : list entity) :
  (forall ent, In ent ents -> label_ ent <> py "DATE") ->
  exists requirements,
    extract_from_ents U parser_parse list_of_set text ents = Ok requirements
    /\ NoDup (dates requirements)
    /\ forall x, In x (dates requirements) <-> In x (re_findall (re_date U) text).
Proof.
  intros NoDate.
  destruct (extract_from_ents_result U parser_parse list_of_set text ents)
    as (looped & duration & L & _ & E).
  destruct (route_entities_sets U parser_parse ents empty_requirements)
    as (looped' & L' & _ & _ & D).
  rewrite L in L'. injection L' as <-.
  assert (Empty : dates looped = []).
  { destruct (dates looped) as [|x xs] eqn:Ed; [reflexivity |].
    destruct (D x (or_introl eq_refl)) as [[] | (ent & d & Hin & Hl & _)].
    destruct (NoDate ent Hin Hl). }
  eexists. split; [exact E |]. cbn [dates]. rewrite Empty. split.
  - apply add_date_matches_NoDup. constructor.
  - intros x. split.
    + intros Hx. apply add_date_matches_from in Hx. now destruct Hx as [[] | Hx].
    + apply add_date_matches_adds.
Qed.

Lemma dates_without_date_entity_are_distinct_witness :
  (forall ent, In ent night_shift_entities -> label_ ent <> py "DATE")
  /\ exists requirements,
       extract_from_ents latin1_db numeric_parser distinct
         text_with_repeated_date night_shift_entities = Ok requirements
       /\ NoDup (dates requirements)
       /\ forall x, In x (dates requirements)
                    <-> In x (re_findall (re_date latin1_db) text_with_repeated_date).
Proof.
  assert (N : forall ent, In ent night_shift_entities -> label_ ent <> py "DATE").
  { intros ent [<- | [<- | [<- | []]]]; discriminate. }
  split; [exact N |].
  exact (dates_without_date_entity_are_distinct latin1_db numeric_parser distinct
           text_with_repeated_date night_shift_entities N).
Defined.

(** A match of the date pattern starts with a digit. *)
Lemma date_starts_with_digit
    (U : unicode_db) (prev : option codepoint) (c : codepoint) (s : str) :
  is_decimal U c = false -> match_at (re_date U) prev (c :: s) = None.
Proof.
  intros H. destruct (match_at (re_date U) prev (c :: s)) as [m |] eqn:M;
    [| reflexivity].
  destruct (date_match_sound U prev (c :: s) m M)
    as (d0 & d1 & d3 & d4 & d6 & d7 & d8 & d9 & rest & Es & E0 & _).
  injection Es as -> _. congruence.
Qed.

Lemma findall_date_without_digit (U : unicode_db) (s : str) :
  Forall (fun c => is_decimal U c = false) s ->
  forall prev, findall_from (re_date U) prev 0 s = [].
Proof.
  induction 1 as [|c s Hc _ IH]; intros prev.
  - cbn [findall_from].
    destruct (match_at (re_date U) prev []) as [m |] eqn:M; [| reflexivity].
    destruct (date_match_sound U prev [] m M)
      as (d0 & d1 & d3 & d4 & d6 & d7 & d8 & d9 & rest & Es & _).
    discriminate Es.
  - rewrite findall_from_try, (date_starts_with_digit U prev c s Hc). apply IH.
Qed.

(** X9: a text without any digit, the empty text among them, gets no
    date from the pattern and the empty duration. *)
Theorem text_without_digit_has_no_date_and_no_duration
    (U : unicode_db) (text : str) :
  Forall (fun c => is_decimal U c = false) text ->
  re_findall (re_date U) text = []
  /\ _calculate_shift_duration U text = Ok [].
Proof.
  intros F. split.
  - apply findall_date_without_digit. exact F.
  - unfold _calculate_shift_duration, re_search.
    destruct (search_time_range_skips U text [] None) as [prev E];
      [exact F |].
    rewrite app_nil_r in E. rewrite E. reflexivity.
Qed.

Lemma text_without_digit_has_no_date_and_no_duration_witness :
  Forall (fun c => is_decimal latin1_db c = false)
    (py "Besoin urgent d'un PAB ce soir")
  /\ re_findall (re_date latin1_db) (py "Besoin urgent d'un PAB ce soir") = []
  /\ _calculate_shift_duration latin1_db (py "Besoin urgent d'un PAB ce soir")
     = Ok [].
Proof.
  assert (F : Forall (fun c => is_decimal latin1_db c = false)
                (py "Besoin urgent d'un PAB ce soir"))
    by (apply no_digit_check; vm_compute; reflexivity).
  split; [exact F |].
  exact (text_without_digit_has_no_date_and_no_duration latin1_db _ F).
Defined.

(** ** More on the mailbox *)

Section MailboxRuns.
Variable U : unicode_db.
Variable parser_parse : str -> result datetime.
Variable list_of_set : list str -> list str.
Variable nlp : str -> result (list entity).
Variables W raw : Type.
Variable api : mail_api W raw.

(** When the loop returns normally it has appended one well-formed
    result for each message, in the order of the messages. *)
Lemma process_loop_results (emails : list Z) :
  forall results w results' w',
    process_loop U parser_parse list_of_set nlp api emails results w
    = (Ok results', w') ->
    exists added,
      results' = results ++ added
      /\ map res_id added = emails
      /\ Forall well_formed_result added.
Proof.
  induction emails as [|email_id emails IH]; intros results w results' w' L.
  - cbn in L. injection L as <- <-. exists []. rewrite app_nil_r.
    repeat split. constructor.
  - cbn [process_loop] in L. unfold io_bind, io_lift in L.
    destruct (imap_fetch api email_id w) as [[raw_email | e] w1]; [| discriminate].
    destruct (parse_email api raw_email) as [parsed | e]; [| discriminate].
    destruct (extract_requirements U parser_parse list_of_set nlp _)
      as [requirements | e]; [| discriminate].
    destruct (mark_as_processed api email_id w1) as [[[] | e] w2]; [| discriminate].
    destruct (IH _ _ _ _ L) as (added & -> & Ids & WF).
    eexists (_ :: added). rewrite <- app_assoc. split; [reflexivity |].
    split; [cbn [map res_id]; now rewrite Ids |].
    constructor; [split; reflexivity | exact WF].
Qed.

(** X10: a run returns either no result at all or one result for each
    unseen message, in the order of the search; every result is flagged
    as processed and classified from its own requirements. When the
    search itself fails the run returns the empty list. *)
Theorem run_returns_all_results_or_none (w : W) :
  (forall emails w1,
      imap_search_unseen api (snd (connect api w)) = (Ok emails, w1) ->
      (fst (process_emails U parser_parse list_of_set nlp api w) = []
       \/ map res_id (fst (process_emails U parser_parse list_of_set nlp api w))
          = emails)
      /\ Forall well_formed_result
           (fst (process_emails U parser_parse list_of_set nlp api w)))
  /\ (forall e w1,
        imap_search_unseen api (snd (connect api w)) = (Raise e, w1) ->
        process_emails U parser_parse list_of_set nlp api w = ([], w1)).
Proof.
  unfold process_emails. destruct (connect api w) as [r w0]. cbn [snd].
  split.
  - intros emails w1 S. unfold io_bind. rewrite S.
    destruct (process_loop U parser_parse list_of_set nlp api emails [] w1)
      as [[results | e] w2] eqn:L; cbn [fst].
    + destruct (process_loop_results emails [] w1 results w2 L)
        as (added & -> & Ids & WF).
      cbn [app]. split; [now right | exact WF].
    + split; [now left | constructor].
  - intros e w1 S. unfold io_bind. now rewrite S.
Qed.

(** X11: [mark_as_processed] creates the folder [Processed] only when
    the server does not list it; when the folder cannot be listed or
    created, the message is not moved; in every case the method returns
    normally. *)
Theorem mark_as_processed_steps (email_id : Z) (w : W) :
  (forall folders w1,
      imap_list_folders api w = (Ok folders, w1) ->
      In (py "Processed") folders ->
      mark_as_processed api email_id w
      = (Ok tt, snd (imap_move api email_id (py "Processed") w1)))
  /\ (forall folders w1 w2,
        imap_list_folders api w = (Ok folders, w1) ->
        ~ In (py "Processed") folders ->
        imap_create_folder api (py "Processed") w1 = (Ok tt, w2) ->
        mark_as_processed api email_id w
        = (Ok tt, snd (imap_move api email_id (py "Processed") w2)))
  /\ (forall folders w1 e w2,
        imap_list_folders api w = (Ok folders, w1) ->
        ~ In (py "Processed") folders ->
        imap_create_folder api (py "Processed") w1 = (Raise e, w2) ->
        mark_as_processed api email_id w = (Ok tt, w2))
  /\ (forall e w1,
        imap_list_folders api w = (Raise e, w1) ->
        mark_as_processed api email_id w = (Ok tt, w1)).
Proof.
  unfold mark_as_processed, io_try, io_bind, io_ret.
  split; [| split; [| split]].
  - intros folders w1 L Hin. rewrite L.
    apply str_mem_In in Hin. rewrite Hin. cbn [negb].
    now destruct (imap_move api email_id (py "Processed") w1) as [[[] | e] w3].
  - intros folders w1 w2 L Hout C. rewrite L.
    apply str_mem_not_In in Hout. rewrite Hout. cbn [negb]. rewrite C.
    now destruct (imap_move api email_id (py "Processed") w2) as [[[] | e] w3].
  - intros folders w1 e w2 L Hout C. rewrite L.
    apply str_mem_not_In in Hout. rewrite Hout. cbn [negb]. now rewrite C.
  - intros e w1 L. now rewrite L.
Qed.
End MailboxRuns.

Lemma run_returns_all_results_or_none_witness :
  imap_search_unseen read_only_mailbox (snd (connect read_only_mailbox []))
  = (Ok [1; 2; 3], [])
  /\ (fst (process_emails latin1_db numeric_parser distinct no_entities
             read_only_mailbox []) = []
      \/ map res_id (fst (process_emails latin1_db numeric_parser distinct
                            no_entities read_only_mailbox []))
         = [1; 2; 3])
  /\ Forall well_formed_result
       (fst (process_emails latin1_db numeric_parser distinct no_entities
               read_only_mailbox [])).
Proof.
  split; [reflexivity |].
  exact (proj1 (run_returns_all_results_or_none latin1_db numeric_parser distinct
                  no_entities (list mail_event) parsed_email read_only_mailbox [])
           [1; 2; 3] [] eq_refl).
Defined.

Lemma mark_as_processed_steps_witness :
  (imap_list_folders faulty_mailbox [] = (Ok [py "INBOX"; py "Processed"], [])
   /\ In (py "Processed") [py "INBOX"; py "Processed"]
   /\ mark_as_processed faulty_mailbox 7 [] = (Ok tt, [Moved 7]))
  /\ (imap_list_folders read_only_mailbox [] = (Ok [py "INBOX"], [])
      /\ ~ In (py "Processed") [py "INBOX"]
      /\ imap_create_folder read_only_mailbox (py "Processed") []
         = (Raise IMAPClientError, [])
      /\ mark_as_processed read_only_mailbox 7 [] = (Ok tt, [])).
Proof.
  assert (I : In (py "Processed") [py "INBOX"; py "Processed"])
    by (right; left; reflexivity).
  assert (O : ~ In (py "Processed") [py "INBOX"])
    by (intros [H | []]; discriminate H).
  split.
  - split; [reflexivity |]. split; [exact I |].
    exact (proj1 (mark_as_processed_steps (list mail_event) parsed_email
                    faulty_mailbox 7 []) _ _ eq_refl I).
  - split; [reflexivity |]. split; [exact O |]. split; [reflexivity |].
    exact (proj1 (proj2 (proj2 (mark_as_processed_steps (list mail_event)
                                  parsed_email read_only_mailbox 7 [])))
             _ _ IMAPClientError _ eq_refl O eq_refl).
Defined.

(** ** Keywords in any casing *)

Lemma lower_from_app (U : unicode_db) (whole x y : str) :
  forall i,
    lower_from U whole i (x ++ y)
    = lower_from U whole i x ++ lower_from U whole (List.length x + i) y.
Proof.
  induction x as [|c x IH]; intros i; [reflexivity |].
  cbn [app lower_from List.length]. rewrite IH, <- app_assoc.
  now rewrite Nat.add_succ_r.
Qed.

(** Away from the capital sigma, [str.lower] maps each character by
    itself. *)
Lemma lower_from_plain (U : unicode_db) (whole s : str) :
  ~ In 931 s ->
  forall i, lower_from U whole i s = flat_map (lower_full U) s.
Proof.
  induction s as [|c s IH]; intros Hs i; [reflexivity |].
  cbn [lower_from flat_map].
  destruct (Z.eqb_spec c 931) as [-> | _]; [destruct Hs; now left |].
  rewrite IH; [reflexivity |]. intros H. apply Hs. now right.
Qed.

(** X12: a text that holds one of the urgency keywords in any casing
    (a string that lower-cases, character by character, to the keyword)
    is flagged as urgent, whatever surrounds the keyword and whatever the
    entities are. *)
Theorem keyword_in_any_casing_is_urgent
    (U : unicode_db) (parser_parse : str -> result datetime)
    (list_of_set : list str -> list str) (ents : list entity)
    (before variant after word : str) :
  In word urgency_keywords ->
  ~ In 931 variant ->
  flat_map (lower_full U) variant = word ->
  exists requirements,
    extract_from_ents U parser_parse list_of_set
      (before ++ variant ++ after) ents = Ok requirements
    /\ urgence requirements = true.
Proof.
  intros Hword Hsigma Hlower.
  destruct (extract_from_ents_result U parser_parse list_of_set
              (before ++ variant ++ after) ents)
    as (looped & duration & _ & _ & E).
  eexists. split; [exact E |]. cbn [urgence].
  apply orb_true_iff. left. apply existsb_exists. exists word.
  split; [exact Hword |]. apply str_contains_infix.
  unfold str_lower. rewrite !lower_from_app.
  rewrite (lower_from_plain U _ variant Hsigma), Hlower.
  eexists. eexists. reflexivity.
Qed.

Lemma keyword_in_any_casing_is_urgent_witness :
  In (py "immédiat") urgency_keywords
  /\ ~ In 931 (py "IMMÉDIAT")
  /\ flat_map (lower_full latin1_db) (py "IMMÉDIAT") = py "immédiat"
  /\ exists requirements,
       extract_from_ents latin1_db numeric_parser distinct
         (py "Besoin " ++ py "IMMÉDIAT" ++ py " d'un PAB") []
       = Ok requirements
       /\ urgence requirements = true.
Proof.
  assert (K : In (py "immédiat") urgency_keywords) by (cbn; tauto).
  assert (S : ~ In 931 (py "IMMÉDIAT")).
  { intros H. cbn in H.
    repeat (destruct H as [H | H]; [discriminate H |]). exact H. }
  assert (L : flat_map (lower_full latin1_db) (py "IMMÉDIAT") = py "immédiat")
    by reflexivity.
  split; [exact K |]. split; [exact S |]. split; [exact L |].
  exact (keyword_in_any_casing_is_urgent latin1_db numeric_parser distinct []
           (py "Besoin ") (py "IMMÉDIAT") (py " d'un PAB") (py "immédiat") K S L).
Defined.
